(** * verify_tools.py: the environment auditor

    A shallow embedding of [src/verify_tools.py] and the properties of its
    probes, its settings-file loader and its summary.

    A Python [str] is a [string]; its characters stand for the code points
    below 256.  The process state the script touches is [os.environ], a finite
    map from names to values, and the lines it has printed.  Everything
    around the script (the search path, the home directory, the file
    system, the installed modules and what looking them up does to the
    process, the [.env] file, whether standard output can be flushed) is
    gathered in a [world]. *)

From Stdlib Require Import Ascii String NArith.
From stdpp Require Import base option list strings gmap pretty.

(* Let [simpl] compute the append of a literal prefix. *)
Local Arguments String.append !_ _ / : simpl nomatch.

(** ** Python string operations used by the script *)

Module Str.

Definition chr (n : nat) : string := String (ascii_of_nat n) "".

(** [str.isspace] on one character, for the code points below 256. *)
Definition isspace (c : ascii) : bool :=
  let n := N_of_ascii c in
  ((9 <=? n) && (n <=? 13) || (28 <=? n) && (n <=? 32)
   || (n =? 133) || (n =? 160))%N.

(** [c in s] for a one-character [c]. *)
Fixpoint contains (c : ascii) (s : string) : bool :=
  match s with
  | "" => false
  | String a s' => Ascii.eqb a c || contains c s'
  end.

(** [s.startswith(p)] *)
Fixpoint startswith (s p : string) {struct p} : bool :=
  match p, s with
  | "", _ => true
  | String b p', String a s' => Ascii.eqb a b && startswith s' p'
  | String _ _, "" => false
  end.

Fixpoint last (s : string) : option ascii :=
  match s with
  | "" => None
  | String a "" => Some a
  | String _ s' => last s'
  end.

(** [s.endswith(c)] for a one-character [c]. *)
Definition endswith (s : string) (c : ascii) : bool :=
  match last s with
  | Some a => Ascii.eqb a c
  | None => false
  end.

Fixpoint lstrip (s : string) : string :=
  match s with
  | "" => ""
  | String a s' => if isspace a then lstrip s' else s
  end.

Fixpoint rstrip (s : string) : string :=
  match s with
  | "" => ""
  | String a s' =>
      match rstrip s' with
      | "" => if isspace a then "" else String a ""
      | r => String a r
      end
  end.

(** [s.strip()] *)
Definition strip (s : string) : string := rstrip (lstrip s).

(** The text before and after the first [c] of [s], when there is one. *)
Fixpoint partition (c : ascii) (s : string) : option (string * string) :=
  match s with
  | "" => None
  | String a s' =>
      if Ascii.eqb a c then Some ("", s')
      else match partition c s' with
           | Some (k, v) => Some (String a k, v)
           | None => None
           end
  end.

(** [s.split(c, 1)] for a one-character separator. *)
Definition split1 (c : ascii) (s : string) : list string :=
  match partition c s with
  | Some (k, v) => [k; v]
  | None => [s]
  end.

(** [c * n] *)
Fixpoint repeat (c : ascii) (n : nat) : string :=
  match n with
  | O => ""
  | S n' => String c (repeat c n')
  end.

(** [f"{s:<n}"]: [s] padded with spaces on the right to width [n]. *)
Definition ljust (n : nat) (s : string) : string :=
  s +:+ repeat " " (n - String.length s).

(** Truth value of a string: the empty string is false. *)
Definition truthy (s : string) : bool :=
  match s with "" => false | _ => true end.

(** Every character of [s] satisfies [p]. *)
Fixpoint all (p : ascii -> bool) (s : string) : bool :=
  match s with
  | "" => true
  | String a s' => p a && all p s'
  end.

End Str.

(** ** [os.path.join] (posixpath) *)

Module OsPath.

Definition sep : ascii := "/".

(** One step of [posixpath.join]: an absolute component replaces what
    came before it, any other is appended after one separator. *)
Definition join2 (path b : string) : string :=
  if Str.startswith b "/" then b
  else if negb (Str.truthy path) || Str.endswith path sep then path +:+ b
  else path +:+ "/" +:+ b.

Definition join (a : string) (ps : list string) : string :=
  foldl join2 a ps.

End OsPath.

(** ** Exceptions *)

Inductive exc : Set :=
  | ImportError | ModuleNotFoundError
  | AttributeError
  | ValueError | UnicodeError | UnicodeDecodeError
  | OSError | FileNotFoundError | IsADirectoryError | PermissionError
  | TypeError | KeyError | RuntimeError | SyntaxError | RecursionError
  | SystemExit (code : nat).

Global Instance exc_eq_dec : EqDecision exc.
Proof. solve_decision. Defined.

(** The direct base class, [None] for the classes that derive from
    [Exception] itself and for [SystemExit], which derives from
    [BaseException]. *)
Definition base_class (e : exc) : option exc :=
  match e with
  | ModuleNotFoundError => Some ImportError
  | UnicodeError => Some ValueError
  | UnicodeDecodeError => Some UnicodeError
  | FileNotFoundError | IsADirectoryError | PermissionError => Some OSError
  | RecursionError => Some RuntimeError
  | _ => None
  end.

Fixpoint issubclass_upto (n : nat) (e c : exc) : bool :=
  bool_decide (e = c) ||
  match n, base_class e with
  | S n', Some b => issubclass_upto n' b c
  | _, _ => false
  end.

Definition issubclass (e c : exc) : bool := issubclass_upto 3 e c.

(** [except (c1, ..., cn):] handles [e]. *)
Definition handles (classes : list exc) (e : exc) : bool :=
  existsb (issubclass e) classes.

Inductive outcome (A : Type) : Type :=
  | Done (a : A)
  | Raised (e : exc).
Arguments Done {A} a.
Arguments Raised {A} e.

(** ** Probe results *)

(** The three status literals ["OK"], ["MISSING"] and ["WARNING"]. *)
Inductive status : Set := OK | MISSING | WARNING.

Global Instance status_eq_dec : EqDecision status.
Proof. solve_decision. Defined.

Definition status_literal (st : status) : string :=
  match st with
  | OK => "OK"
  | MISSING => "MISSING"
  | WARNING => "WARNING"
  end.

(** ** The process: [os.environ] and the printed lines *)

Record process : Type := Process {
  environ : gmap string string;
  stdout : list string
}.

(** ** What surrounds the script *)

(** [importlib.util.find_spec]: a spec, [None], or an exception. *)
Inductive lookup : Set :=
  | Spec
  | NoSpec
  | LookupRaises (e : exc).

(** The [.env] file of the working directory: absent; not to be told,
    when [Path.exists] raises the error of [stat] (a working directory
    that may not be searched); present but not openable; opened, with the
    lines a text-mode iteration yields before it raises (a byte sequence
    that does not decode); or the lines of a file that is read to its
    end. *)
Inductive settings_file : Type :=
  | Absent
  | Unknown (e : exc)
  | Unreadable (e : exc)
  | Broken (ls : list string) (e : exc)
  | Lines (ls : list string).

(** [home] is [str(Path.home())], [None] when [Path.home()] raises
    [RuntimeError] because the home directory cannot be determined.
    [find_spec] is the answer of a lookup and [lookup_effect] what the
    lookup does to the process before it answers: for a dotted name it
    imports the parent package, whose code may assign to [os.environ] and
    print.  [stdout_flushes] tells whether what was printed can be flushed
    when the interpreter exits.  The search path, the home directory and
    the files the probes test are those of the whole run: the effect of a
    lookup is on [os.environ] as the script reads it and on what is
    printed, not on what [shutil.which] and [Path.home] answer later. *)
Record world : Type := World {
  shutil_which : string -> option string;
  home : option string;
  os_path_exists : string -> bool;
  os_access_X_OK : string -> bool;
  find_spec : string -> lookup;
  lookup_effect : string -> process -> process;
  dotenv : settings_file;
  stdout_flushes : bool
}.

(** ** [check_command] *)

Definition common_paths (home cmd : string) : list string :=
  [ OsPath.join home ["go"; "bin"; cmd];
    OsPath.join home [".cargo"; "bin"; cmd];
    OsPath.join home [".local"; "bin"; cmd];
    OsPath.join home ["bin"; cmd];
    "/usr/local/go/bin/" +:+ cmd ].

Definition executable_at (w : world) (p : string) : bool :=
  os_path_exists w p && os_access_X_OK w p.

Fixpoint probe_common_paths (w : world) (ps : list string)
  : status * string :=
  match ps with
  | [] => (MISSING, "Not found in PATH")
  | p :: ps' =>
      if executable_at w p
      then (WARNING, "Found at " +:+ p +:+ " (Not in PATH)")
      else probe_common_paths w ps'
  end.

(** What follows the search of the path: [Path.home()] is called first and
    its [RuntimeError] is not handled. *)
Definition check_common_paths (w : world) (cmd : string)
  : outcome (status * string) :=
  match home w with
  | Some home => Done (probe_common_paths w (common_paths home cmd))
  | None => Raised RuntimeError
  end.

Definition check_command (w : world) (cmd : string)
  : outcome (status * string) :=
  match shutil_which w cmd with
  | Some path =>
      if Str.truthy path then Done (OK, path)
      else check_common_paths w cmd
  | None => check_common_paths w cmd
  end.

(** ** [check_python_package] *)

(** The body of the [try]: [Done true] stands for the early
    [return "OK", ""], [Done false] for falling out of the block. *)
Definition find_spec_found (w : world) (package : string) : outcome bool :=
  match find_spec w package with
  | Spec => Done true
  | NoSpec => Done false
  | LookupRaises e => Raised e
  end.

Definition lookup_handler : list exc :=
  [ImportError; AttributeError; ValueError].

Definition check_python_package (w : world) (package : string)
  : outcome (status * string) :=
  let missing := Done (MISSING, "Run: pip install " +:+ package) in
  match find_spec_found w package with
  | Done true => Done (OK, "")
  | Done false => missing
  | Raised e => if handles lookup_handler e then missing else Raised e
  end.

(** ** [check_env_var] *)

Definition placeholders : list string :=
  ["your-key-here"; "your-mistral-api-key"].

Definition check_env_var (environ : gmap string string) (var : string)
  : status * string :=
  let not_set := (WARNING, "Not set (some features may fail)") in
  match environ !! var with
  | Some val =>
      if Str.truthy val && Str.truthy (Str.strip val) then
        if bool_decide (val ∈ placeholders)
        then (WARNING, "Set to placeholder value")
        else (OK, "Configured")
      else not_set
  | None => not_set
  end.

(** ** Statements on the process *)

Definition emit (ls : list string) (s : process) : process :=
  {| environ := environ s; stdout := stdout s ++ ls |}.

Definition NUL : ascii := ascii_of_nat 0.

(** [os.environ[k] = v].  A name or value with a NUL character and a name
    with [=] are refused with [ValueError]; [setenv] refuses the empty
    name, which surfaces as [OSError]. *)
Definition environ_setitem (k v : string) (env : gmap string string)
  : outcome (gmap string string) :=
  if Str.contains NUL k || Str.contains NUL v then Raised ValueError
  else if Str.contains "=" k then Raised ValueError
  else if negb (Str.truthy k) then Raised OSError
  else Done (<[k := v]> env).

(** Statements run on the process and either finish or raise. *)
Definition py (A : Type) : Type := process -> outcome A * process.

Definition ret {A} (a : A) : py A := fun s => (Done a, s).

Definition bind {A B} (m : py A) (f : A -> py B) : py B :=
  fun s =>
    match m s with
    | (Done a, s') => f a s'
    | (Raised e, s') => (Raised e, s')
    end.

Declare Scope py_scope.
Delimit Scope py_scope with py.
Notation "x <- m ;; k" := (bind m (fun x => k))
  (at level 100, m at next level, right associativity) : py_scope.
Notation "m ;; k" := (bind m (fun _ => k))
  (at level 100, right associativity) : py_scope.
Local Open Scope py_scope.

Definition raise {A} (e : exc) : py A := fun s => (Raised e, s).

Definition lift {A} (o : outcome A) : py A := fun s => (o, s).

Definition print (line : string) : py unit :=
  fun s => (Done tt, emit [line] s).

Definition get_environ : py (gmap string string) :=
  fun s => (Done (environ s), s).

Definition environ_set (k v : string) : py unit :=
  fun s =>
    match environ_setitem k v (environ s) with
    | Done env' => (Done tt, {| environ := env'; stdout := stdout s |})
    | Raised e => (Raised e, s)
    end.

(** [for x in l: body(x)] *)
Fixpoint for_each {A} (l : list A) (body : A -> py unit) : py unit :=
  match l with
  | [] => ret tt
  | x :: l' => body x ;; for_each l' body
  end.

(** ** Output *)

Definition ESC : string := Str.chr 27.
Definition NL : string := Str.chr 10.

Definition GREEN : string := ESC +:+ "[92m".
Definition RED : string := ESC +:+ "[91m".
Definition YELLOW : string := ESC +:+ "[93m".
Definition CYAN : string := ESC +:+ "[96m".
Definition RESET : string := ESC +:+ "[0m".

Definition status_colour (st : status) : string :=
  match st with
  | OK => GREEN
  | MISSING => RED
  | WARNING => YELLOW
  end.

Definition status_line (name : string) (st : status) (message : string)
  : string :=
  "[" +:+ status_colour st +:+ status_literal st +:+ RESET +:+ "] "
  +:+ Str.ljust 25 name +:+ " " +:+ message.

Definition print_status (name : string) (st : status) (message : string)
  : py unit :=
  match st with
  | OK =>
      print ("[" +:+ GREEN +:+ "OK" +:+ RESET +:+ "] "
             +:+ Str.ljust 25 name +:+ " " +:+ message)
  | MISSING =>
      print ("[" +:+ RED +:+ "MISSING" +:+ RESET +:+ "] "
             +:+ Str.ljust 25 name +:+ " " +:+ message)
  | WARNING =>
      print ("[" +:+ YELLOW +:+ "WARNING" +:+ RESET +:+ "] "
             +:+ Str.ljust 25 name +:+ " " +:+ message)
  end.

Definition rule : string := Str.repeat "=" 50.

(** ** Catalogs *)

Definition sys_tools : list string :=
  ["git"; "curl"; "wget"; "jq"; "nmap"; "go"; "cargo"].

Definition py_packages : list string :=
  ["requests"; "dnspython"; "urllib3"; "anthropic"; "openai";
   "google.generativeai"; "mistune"; "wafw00f"; "paramspider"].

Definition sec_tools : list string :=
  ["nmap"; "rustscan"; "naabu"; "masscan";
   "subfinder"; "amass"; "assetfinder"; "findomain"; "puredns";
   "httpx"; "nuclei"; "nikto"; "whatweb"; "wafw00f";
   "sqlmap"; "wpscan"; "feroxbuster"; "gobuster"; "ffuf";
   "dirsearch"; "gau"; "waybackurls"; "katana"; "paramspider"].

Definition api_keys : list string :=
  ["MISTRAL_API_KEY"; "OPENAI_API_KEY"; "ANTHROPIC_API_KEY";
   "GOOGLE_API_KEY"].

(** ** [main] *)

(** [module = pkg], then the two renaming [if]s. *)
Definition module_of (pkg : string) : string :=
  let module := pkg in
  let module := if String.eqb pkg "dnspython" then "dns" else module in
  let module :=
    if String.eqb pkg "google.generativeai" then "google.generativeai"
    else module in
  module.

Definition check_system_tools (w : world) : py unit :=
  print (NL +:+ CYAN +:+ "[+] Checking System Tools" +:+ RESET) ;;
  for_each sys_tools (fun tool =>
    r <- lift (check_command w tool) ;;
    let '(st, msg) := r in
    print_status tool st msg).

(** A call of [check_python_package] in the run: the lookup first does to
    the process what [lookup_effect] says, then the call answers or
    raises. *)
Definition call_check_python_package (w : world) (package : string)
  : py (status * string) :=
  fun s => (check_python_package w package, lookup_effect w package s).

Definition check_python_libraries (w : world) : py unit :=
  print (NL +:+ CYAN +:+ "[+] Checking Python Libraries" +:+ RESET) ;;
  for_each py_packages (fun pkg =>
    r <- call_check_python_package w (module_of pkg) ;;
    let '(st, msg) := r in
    print_status pkg st msg).

(** The loop over [sec_tools], with [missing_tools] threaded through. *)
Fixpoint probe_security_tools (w : world) (tools missing_tools : list string)
  : py (list string) :=
  match tools with
  | [] => ret missing_tools
  | tool :: tools' =>
      r <- lift (check_command w tool) ;;
      let '(st, msg) := r in
      print_status tool st msg ;;
      probe_security_tools w tools'
        (if bool_decide (st = MISSING) then missing_tools ++ [tool]
         else missing_tools)
  end.

Definition check_security_tools (w : world) : py (list string) :=
  print (NL +:+ CYAN +:+ "[+] Checking Security Tools" +:+ RESET) ;;
  probe_security_tools w sec_tools [].

(** [k, v = parts] *)
Definition unpack2 (parts : list string) : outcome (string * string) :=
  match parts with
  | [k; v] => Done (k, v)
  | _ => Raised ValueError
  end.

(** The body of [for line in f]. *)
Definition load_line (line : string) : py unit :=
  if Str.contains "=" line && negb (Str.startswith line "#") then
    kv <- lift (unpack2 (Str.split1 "=" (Str.strip line))) ;;
    let '(k, v) := kv in
    environ_set k v
  else ret tt.

Definition load_settings (w : world) : py unit :=
  match dotenv w with
  | Absent => print_status ".env file" MISSING "Copy .env.example to .env"
  | Unknown e => raise e
  | Unreadable e => print_status ".env file" OK "Found" ;; raise e
  | Broken ls e =>
      print_status ".env file" OK "Found" ;; for_each ls load_line ;; raise e
  | Lines ls => print_status ".env file" OK "Found" ;; for_each ls load_line
  end.

Definition check_configuration (w : world) : py unit :=
  print (NL +:+ CYAN +:+ "[+] Checking Configuration (.env)" +:+ RESET) ;;
  load_settings w ;;
  for_each api_keys (fun key =>
    env <- get_environ ;;
    let '(st, msg) := check_env_var env key in
    print_status key st msg).

Definition print_summary (missing_tools : list string) : py unit :=
  print (NL +:+ rule) ;;
  match missing_tools with
  | _ :: _ =>
      print (YELLOW +:+ "Warning: " +:+ pretty (length missing_tools)
             +:+ " tools are missing or not in PATH." +:+ RESET) ;;
      print "Run usage tests to see if these are critical for your workflow." ;;
      print "To install missing tools, run: ./install_tools.sh" ;;
      print "If tools show as WARNING (Found at...), run: source ~/.bashrc"
  | [] =>
      print (GREEN +:+ "All checked tools are installed!" +:+ RESET)
  end ;;
  print (rule +:+ NL).

Definition main (w : world) : py unit :=
  print (NL +:+ CYAN +:+ "NeuroSploit Tool Verification Script" +:+ RESET) ;;
  print rule ;;
  check_system_tools w ;;
  check_python_libraries w ;;
  missing_tools <- check_security_tools w ;;
  check_configuration w ;;
  print_summary missing_tools.

(** The exit status the outcome of [main] asks for: 0 when it returns, the
    code of a [SystemExit], 1 for any other exception that escapes. *)
Definition exit_code {A} (o : outcome A) : nat :=
  match o with
  | Done _ => 0
  | Raised (SystemExit code) => code mod 256
  | Raised _ => 1
  end.

(** The exit status of the interpreter: 120, whatever [main] did, when
    standard output cannot be flushed at the end. *)
Definition run_script (w : world) (s : process) : nat * process :=
  let '(o, s') := main w s in
  (if stdout_flushes w then exit_code o else 120, s').

(** ** Vocabulary of the properties *)

(** The five fallback directories [~/go/bin], [~/.cargo/bin],
    [~/.local/bin], [~/bin] and [/usr/local/go/bin], for the home
    directory [h]. *)
Definition fallback_dirs (h : string) : list string :=
  [ OsPath.join h ["go"; "bin"];
    OsPath.join h [".cargo"; "bin"];
    OsPath.join h [".local"; "bin"];
    OsPath.join h ["bin"];
    "/usr/local/go/bin" ].

(** The path of the file called [name] in the directory [d]. *)
Definition file_in (d name : string) : string := d +:+ "/" +:+ name.

(** [shutil.which] found [cmd] at [p]. *)
Definition on_search_path (w : world) (cmd p : string) : Prop :=
  shutil_which w cmd = Some p /\ p <> "".

(** A value that is empty or made of whitespace only. *)
Definition blank (v : string) : bool := Str.all Str.isspace v.

(** The key and value the loader reads from a line, [None] for a line it
    skips. *)
Definition assignment (line : string) : option (string * string) :=
  if Str.contains "=" line && negb (Str.startswith line "#")
  then Str.partition "=" (Str.strip line)
  else None.

(** The status of a probe that answered. *)
Definition probe_status (o : outcome (status * string)) : option status :=
  match o with
  | Done r => Some r.1
  | Raised _ => None
  end.

(** The statuses of the security-tool probes, in catalog order. *)
Definition sec_statuses (w : world) : list status :=
  omap (fun tool => probe_status (check_command w tool)) sec_tools.

Definition count_missing (sts : list status) : nat :=
  length (filter (fun st => st = MISSING) sts).

(** The module lookups of the package catalog raise nothing but what
    [check_python_package] handles. *)
Definition lookups_tolerated (w : world) : Prop :=
  forall pkg e, pkg ∈ py_packages ->
    find_spec w (module_of pkg) = LookupRaises e ->
    handles lookup_handler e = true.

(** Every probe of [tools] answers. *)
Definition probes_answer (w : world) (tools : list string) : Prop :=
  forall tool, tool ∈ tools -> exists r, check_command w tool = Done r.

(** The home directory is known, or no probe of the two tool catalogs asks
    for it. *)
Definition tools_resolvable (w : world) : Prop :=
  is_Some (home w) \/
  forall tool, tool ∈ sys_tools ++ sec_tools ->
    exists p, on_search_path w tool p.


(** A line the environment accepts: it is skipped, or its key is not empty
    and it holds no NUL character. *)
Definition storable (line : string) : Prop :=
  forall k v, assignment line = Some (k, v) ->
    k <> "" /\ Str.contains NUL line = false.

(** The settings file is absent, or can be read to its end and every line
    of it is accepted by the environment. *)
Definition settings_loadable (w : world) : Prop :=
  match dotenv w with
  | Absent => True
  | Unknown _ | Unreadable _ | Broken _ _ => False
  | Lines ls => forall line, line ∈ ls -> storable line
  end.

(** What a completed run prints, section by section. *)

Definition probe_line (name : string) (r : status * string) : string :=
  status_line name r.1 r.2.

Definition banner : list string :=
  [NL +:+ CYAN +:+ "NeuroSploit Tool Verification Script" +:+ RESET; rule].

(** The lines of the probes of [tools] that answer. *)
Definition probe_lines (w : world) (tools : list string) : list string :=
  omap (fun tool =>
          match check_command w tool with
          | Done r => Some (probe_line tool r)
          | Raised _ => None
          end) tools.

Definition system_report (w : world) : list string :=
  (NL +:+ CYAN +:+ "[+] Checking System Tools" +:+ RESET)
  :: probe_lines w sys_tools.

(** The answer of the Package Resolver for a catalog entry when the lookup
    returns or its exception is handled. *)
Definition package_result (w : world) (pkg : string) : status * string :=
  match find_spec w (module_of pkg) with
  | Spec => (OK, "")
  | _ => (MISSING, "Run: pip install " +:+ module_of pkg)
  end.


Definition security_report (w : world) : list string :=
  (NL +:+ CYAN +:+ "[+] Checking Security Tools" +:+ RESET)
  :: probe_lines w sec_tools.


Definition variables_report (env : gmap string string) : list string :=
  map (fun key => probe_line key (check_env_var env key)) api_keys.

(** The summary for [n] missing security tools. *)
Definition summary_report (n : nat) : list string :=
  [NL +:+ rule] ++
  match n with
  | O => [GREEN +:+ "All checked tools are installed!" +:+ RESET]
  | S _ =>
      [ YELLOW +:+ "Warning: " +:+ pretty n
        +:+ " tools are missing or not in PATH." +:+ RESET;
        "Run usage tests to see if these are critical for your workflow.";
        "To install missing tools, run: ./install_tools.sh";
        "If tools show as WARNING (Found at...), run: source ~/.bashrc" ]
  end ++
  [rule +:+ NL].


(** ** Sample worlds *)

Definition start : process := {| environ := ∅; stdout := [] |}.

(** Nothing installed, no settings file. *)
Definition bare_world : world :=
  {| shutil_which := fun _ => None;
     home := Some "/home/user";
     os_path_exists := fun _ => false;
     os_access_X_OK := fun _ => false;
     find_spec := fun _ => NoSpec;
     lookup_effect := fun _ s => s;
     dotenv := Absent;
     stdout_flushes := true |}.

Definition with_settings (f : settings_file) (w : world) : world :=
  {| shutil_which := shutil_which w;
     home := home w;
     os_path_exists := os_path_exists w;
     os_access_X_OK := os_access_X_OK w;
     find_spec := find_spec w;
     lookup_effect := lookup_effect w;
     dotenv := f;
     stdout_flushes := stdout_flushes w |}.

(** Only the directory [/usr] exists: [shutil.which] does not accept a
    directory, [os.path.exists] and [os.access] do. *)
Definition usr_world : world :=
  {| shutil_which := fun _ => None;
     home := Some "/home/user";
     os_path_exists := String.eqb "/usr";
     os_access_X_OK := String.eqb "/usr";
     find_spec := fun _ => NoSpec;
     lookup_effect := fun _ s => s;
     dotenv := Absent;
     stdout_flushes := true |}.

(** [nmap] is on the search path, [naabu] sits in [~/go/bin] only. *)
Definition lab_world : world :=
  {| shutil_which := fun cmd =>
       if String.eqb cmd "nmap" then Some "/usr/bin/nmap" else None;
     home := Some "/home/user";
     os_path_exists := String.eqb "/home/user/go/bin/naabu";
     os_access_X_OK := String.eqb "/home/user/go/bin/naabu";
     find_spec := fun _ => NoSpec;
     lookup_effect := fun _ s => s;
     dotenv := Absent;
     stdout_flushes := true |}.

(** Every tool of both catalogs is on the search path. *)
Definition full_world : world :=
  {| shutil_which := fun cmd => Some ("/usr/bin/" +:+ cmd);
     home := Some "/home/user";
     os_path_exists := fun _ => false;
     os_access_X_OK := fun _ => false;
     find_spec := fun _ => Spec;
     lookup_effect := fun _ s => s;
     dotenv := Absent;
     stdout_flushes := true |}.

(** The parent package of [google.generativeai] fails to compile when the
    lookup imports it. *)
Definition broken_package_world : world :=
  {| shutil_which := fun _ => None;
     home := Some "/home/user";
     os_path_exists := fun _ => false;
     os_access_X_OK := fun _ => false;
     find_spec := fun m =>
       if String.eqb m "google.generativeai" then LookupRaises SyntaxError
       else NoSpec;
     lookup_effect := fun _ s => s;
     dotenv := Absent;
     stdout_flushes := true |}.

(** Every lookup fails with [ModuleNotFoundError], as for a dotted name
    whose parent is not a package. *)
Definition stale_parent_world : world :=
  {| shutil_which := fun _ => None;
     home := Some "/root";
     os_path_exists := fun _ => false;
     os_access_X_OK := fun _ => false;
     find_spec := fun _ => LookupRaises ModuleNotFoundError;
     lookup_effect := fun _ s => s;
     dotenv := Absent;
     stdout_flushes := true |}.

Definition anthropic_line : string := "ANTHROPIC_API_KEY=sk-real123".

(** A settings file with the key and other lines around it. *)
Definition keyed_world : world :=
  with_settings
    (Lines ["# keys" +:+ NL; anthropic_line +:+ NL;
            "OPENAI_API_KEY=sk-other" +:+ NL]) bare_world.

(** The shell already exports a placeholder for the key. *)
Definition placeholder_start : process :=
  {| environ := {["ANTHROPIC_API_KEY" := "your-key-here"]}; stdout := [] |}.

(** A settings file that assigns the key twice. *)
Definition rekeyed_world : world :=
  with_settings
    (Lines [anthropic_line +:+ NL;
            "ANTHROPIC_API_KEY=your-key-here" +:+ NL]) bare_world.


(** A settings file whose only line has nothing before the [=]. *)
Definition empty_key_world : world :=
  with_settings (Lines ["=value" +:+ NL]) bare_world.

(** [httpx] sits in [~/go/bin] and in [~/.cargo/bin], and is on no
    search path. *)
Definition twice_world : world :=
  {| shutil_which := fun _ => None;
     home := Some "/home/user";
     os_path_exists := fun p =>
       String.eqb p "/home/user/go/bin/httpx"
       || String.eqb p "/home/user/.cargo/bin/httpx";
     os_access_X_OK := fun p =>
       String.eqb p "/home/user/go/bin/httpx"
       || String.eqb p "/home/user/.cargo/bin/httpx";
     find_spec := fun _ => NoSpec;
     lookup_effect := fun _ s => s;
     dotenv := Absent;
     stdout_flushes := true |}.


(** A settings file with a good line, a line with the empty key, and a
    line after it. *)
Definition torn_world : world :=
  with_settings
    (Lines ["OPENAI_API_KEY=sk-one" +:+ NL; "=value" +:+ NL;
            "GOOGLE_API_KEY=sk-two" +:+ NL]) bare_world.

(** Nothing installed, no tool on the search path, and a home directory
    that cannot be determined. *)
Definition homeless_world : world :=
  {| shutil_which := fun _ => None;
     home := None;
     os_path_exists := fun _ => false;
     os_access_X_OK := fun _ => false;
     find_spec := fun _ => NoSpec;
     lookup_effect := fun _ s => s;
     dotenv := Absent;
     stdout_flushes := true |}.


(** [git] and [curl] are on the search path, nothing else is, and the home
    directory cannot be determined. *)
Definition two_tools_world : world :=
  {| shutil_which := fun cmd =>
       if bool_decide (cmd ∈ ["git"; "curl"])
       then Some ("/usr/bin/" +:+ cmd) else None;
     home := None;
     os_path_exists := fun _ => false;
     os_access_X_OK := fun _ => false;
     find_spec := fun _ => NoSpec;
     lookup_effect := fun _ s => s;
     dotenv := Absent;
     stdout_flushes := true |}.

(** A working directory that may not be searched: whether [.env] exists
    cannot be told. *)
Definition unsearchable_world : world :=
  with_settings (Unknown PermissionError) bare_world.


(** A settings file that yields one line and then fails to decode. *)
Definition half_read_world : world :=
  with_settings (Broken ["OPENAI_API_KEY=sk-one" +:+ NL] UnicodeDecodeError)
    bare_world.

(** The text that [print_status] puts before the name. *)
Definition status_tag (st : status) : string :=
  "[" +:+ status_colour st +:+ status_literal st +:+ RESET +:+ "] ".

(** * Properties *)

(** ** Strings *)

Section StringFacts.

Implicit Types (s t : string) (a c : ascii).

Lemma append_nil_r s : s +:+ "" = s.
Proof. induction s as [|a s IH]; simpl; [done | by rewrite IH]. Qed.

Lemma append_assoc s t u : (s +:+ t) +:+ u = s +:+ t +:+ u.
Proof. induction s as [|a s IH]; simpl; [done | by rewrite IH]. Qed.

Lemma truthy_true s : Str.truthy s = true <-> s <> "".
Proof. destruct s; simpl; split; congruence. Qed.

Lemma truthy_false s : Str.truthy s = false <-> s = "".
Proof. destruct s; simpl; split; congruence. Qed.

Lemma last_cons_nonempty b a t :
  Str.last (String b (String a t)) = Str.last (String a t).
Proof. done. Qed.

Lemma last_append_cons s a t :
  Str.last (s +:+ String a t) = Str.last (String a t).
Proof.
  induction s as [|b s IH]; [done|].
  rewrite <- IH. simpl String.append.
  destruct s; simpl String.append; apply last_cons_nonempty.
Qed.

Lemma contains_append c s t :
  Str.contains c (s +:+ t) = Str.contains c s || Str.contains c t.
Proof.
  induction s as [|a s IH]; simpl; [done|].
  rewrite IH. by destruct (Ascii.eqb a c).
Qed.

(** *** [partition] finds the first separator *)

Lemma partition_Some c s k v :
  Str.partition c s = Some (k, v) ->
  s = k +:+ String c v /\ Str.contains c k = false.
Proof.
  revert k v. induction s as [|a s IH]; intros k v; simpl; [done|].
  destruct (Ascii.eqb_spec a c) as [->|Hne].
  - intros [= <- <-]. done.
  - destruct (Str.partition c s) as [[k' v']|]; [|done].
    intros [= <- <-]. destruct (IH k' v' eq_refl) as [-> Hk].
    split; [done|]. simpl. rewrite Hk.
    by apply Ascii.eqb_neq in Hne as ->.
Qed.

Lemma partition_None c s :
  Str.partition c s = None <-> Str.contains c s = false.
Proof.
  induction s as [|a s IH]; simpl; [done|].
  destruct (Ascii.eqb a c); simpl; [done|].
  destruct (Str.partition c s) as [[k v]|]; [|done].
  split; [done|]. intros H. by apply IH in H.
Qed.

Lemma partition_is_Some c s :
  Str.contains c s = true -> is_Some (Str.partition c s).
Proof.
  intros H. destruct (Str.partition c s) eqn:E; [by eexists|].
  apply partition_None in E. congruence.
Qed.

(** *** [strip] removes whitespace at both ends and nothing else *)

Lemma contains_lstrip c s :
  Str.isspace c = false ->
  Str.contains c (Str.lstrip s) = Str.contains c s.
Proof.
  intros Hc. induction s as [|a s IH]; simpl; [done|].
  destruct (Str.isspace a) eqn:Ha; [|done].
  rewrite IH. destruct (Ascii.eqb_spec a c) as [->|]; [congruence | done].
Qed.

Lemma contains_rstrip c s :
  Str.isspace c = false ->
  Str.contains c (Str.rstrip s) = Str.contains c s.
Proof.
  intros Hc. induction s as [|a s IH]; simpl; [done|].
  destruct (Str.rstrip s) as [|b r] eqn:E.
  - rewrite <- IH. simpl. rewrite orb_false_r.
    destruct (Str.isspace a) eqn:Ha; simpl; [|by rewrite orb_false_r].
    destruct (Ascii.eqb_spec a c) as [->|]; [congruence | done].
  - by rewrite <- IH.
Qed.

Lemma contains_strip c s :
  Str.isspace c = false ->
  Str.contains c (Str.strip s) = Str.contains c s.
Proof.
  intros Hc. unfold Str.strip.
  by rewrite contains_rstrip, contains_lstrip.
Qed.

Lemma rstrip_empty s : Str.rstrip s = "" <-> blank s = true.
Proof.
  unfold blank. induction s as [|a s IH]; simpl; [done|].
  destruct (Str.rstrip s) as [|b r] eqn:E.
  - destruct (Str.isspace a); simpl; [|done].
    split; [intros _; by apply IH | done].
  - split; [done|]. intros [_ H]%andb_true_iff. by apply IH in H.
Qed.

Lemma blank_lstrip s : blank (Str.lstrip s) = blank s.
Proof.
  unfold blank. induction s as [|a s IH]; simpl; [done|].
  destruct (Str.isspace a) eqn:Ha; simpl; [done | by rewrite Ha].
Qed.

Lemma strip_empty s : Str.strip s = "" <-> blank s = true.
Proof. unfold Str.strip. by rewrite rstrip_empty, blank_lstrip. Qed.

Lemma blank_empty : blank "" = true.
Proof. done. Qed.

(** The value is "set" for [check_env_var] exactly when it is not
    blank. *)
Lemma set_iff_not_blank s :
  Str.truthy s && Str.truthy (Str.strip s) = negb (blank s).
Proof.
  destruct (blank s) eqn:Hb; simpl.
  - apply strip_empty in Hb. rewrite Hb. simpl. by rewrite andb_false_r.
  - assert (Str.strip s <> "") as Hs.
    { intros Hs%strip_empty. congruence. }
    assert (s <> "") as Hne by (intros ->; done).
    apply truthy_true in Hs, Hne. by rewrite Hs, Hne.
Qed.

Lemma lstrip_head s a t :
  Str.lstrip s = String a t -> Str.isspace a = false.
Proof.
  induction s as [|b s IH]; simpl; [done|].
  destruct (Str.isspace b) eqn:Hb; [done|]. by intros [= <- <-].
Qed.

Lemma rstrip_head a s :
  Str.isspace a = false ->
  exists r, Str.rstrip (String a s) = String a r.
Proof.
  intros Ha. simpl. destruct (Str.rstrip s); [rewrite Ha|]; by eexists.
Qed.

(** The stripped line starts with the first character that is not
    whitespace. *)
Lemma strip_head s a t :
  Str.lstrip s = String a t -> exists r, Str.strip s = String a r.
Proof.
  intros H. unfold Str.strip. rewrite H.
  apply rstrip_head. by eapply lstrip_head.
Qed.

Lemma lstrip_fixed a s : Str.isspace a = false ->
  Str.lstrip (String a s) = String a s.
Proof. intros Ha. simpl. by rewrite Ha. Qed.

Lemma strip_no_leading_space s : Str.lstrip (Str.strip s) = Str.strip s.
Proof.
  destruct (Str.lstrip s) as [|a t] eqn:E.
  - unfold Str.strip. by rewrite E.
  - destruct (strip_head _ _ _ E) as [r ->].
    apply lstrip_fixed. by eapply lstrip_head.
Qed.

Lemma rstrip_idem s : Str.rstrip (Str.rstrip s) = Str.rstrip s.
Proof.
  induction s as [|a s IH]; simpl; [done|].
  destruct (Str.rstrip s) as [|b r] eqn:E.
  - destruct (Str.isspace a) eqn:Ha; simpl; [done | by rewrite Ha].
  - change (Str.rstrip (String a (String b r)))
      with (match Str.rstrip (String b r) with
            | "" => if Str.isspace a then "" else String a ""
            | String c q => String a (String c q)
            end).
    by rewrite IH.
Qed.

Lemma strip_no_trailing_space s : Str.rstrip (Str.strip s) = Str.strip s.
Proof. apply rstrip_idem. Qed.

(** A prefix of a text without leading whitespace has none either. *)
Lemma lstrip_prefix s t :
  Str.lstrip (s +:+ t) = s +:+ t -> t <> "" -> Str.lstrip s = s.
Proof.
  destruct s as [|a s]; [done|]. simpl.
  destruct (Str.isspace a) eqn:Ha; [|done].
  intros H _. exfalso.
  assert (forall u, String.length (Str.lstrip u) <= String.length u) as Hlen.
  { induction u as [|b u IH]; simpl; [lia|].
    destruct (Str.isspace b); simpl; lia. }
  specialize (Hlen (s +:+ t)). rewrite H in Hlen. simpl in Hlen. lia.
Qed.

(** A suffix of a text without trailing whitespace has none either. *)
Lemma rstrip_suffix s t :
  Str.rstrip (s +:+ t) = s +:+ t -> Str.rstrip t = t.
Proof.
  induction s as [|a s IH]; simpl; [done|].
  destruct (Str.rstrip (s +:+ t)) as [|b r] eqn:E.
  - destruct (Str.isspace a); [done|].
    intros [= H]. symmetry in H. destruct s; [|done].
    simpl in H. by subst t.
  - intros [= H]. by apply IH.
Qed.

End StringFacts.

(** ** The Command Resolver *)

Section CommandResolver.

Variable w : world.

Lemma join2_bin_last path : Str.last (OsPath.join2 path "bin") = Some "n"%char.
Proof.
  unfold OsPath.join2.
  change (Str.startswith "bin" "/") with false. cbv iota.
  destruct (negb (Str.truthy path) || Str.endswith path OsPath.sep).
  - apply (last_append_cons path "b" "in").
  - apply (last_append_cons path "/" "bin").
Qed.

(** Joining a name that is not absolute to a directory that does not end
    in the separator puts one separator between them. *)
Lemma join2_file dir a name :
  Str.last dir = Some a -> a <> OsPath.sep ->
  Str.startswith name "/" = false ->
  OsPath.join2 dir name = file_in dir name.
Proof.
  intros Hlast Ha Hname. unfold OsPath.join2, Str.endswith, file_in.
  rewrite Hname, Hlast.
  apply Ascii.eqb_neq in Ha as ->.
  by destruct dir.
Qed.

Lemma common_paths_files h cmd :
  Str.startswith cmd "/" = false ->
  common_paths h cmd = map (fun d => file_in d cmd) (fallback_dirs h).
Proof.
  intros Hcmd. unfold common_paths, fallback_dirs, OsPath.join.
  cbn [foldl map].
  by rewrite !(join2_file _ "n" cmd) by (done || apply join2_bin_last).
Qed.

Lemma no_separator_not_absolute cmd :
  Str.contains "/" cmd = false -> Str.startswith cmd "/" = false.
Proof.
  destruct cmd as [|a cmd]; [done|]. simpl.
  intros [-> _]%orb_false_iff. done.
Qed.

Lemma probe_common_paths_missing ps :
  (forall p, p ∈ ps -> executable_at w p = false) ->
  probe_common_paths w ps = (MISSING, "Not found in PATH").
Proof.
  induction ps as [|p ps IH]; intros H; simpl; [done|].
  rewrite (H p) by left. apply IH. intros q Hq. apply H. by right.
Qed.

(** The probe reports the first of the paths that is executable. *)
Lemma probe_common_paths_warning ps :
  (exists p, p ∈ ps /\ executable_at w p = true) ->
  exists p, p ∈ ps /\ executable_at w p = true /\
    probe_common_paths w ps
    = (WARNING, "Found at " +:+ p +:+ " (Not in PATH)").
Proof.
  induction ps as [|q ps IH]; intros (p & Hp & Hx).
  - by apply elem_of_nil in Hp.
  - simpl. destruct (executable_at w q) eqn:Hq.
    + exists q. split; [left | done].
    + apply elem_of_cons in Hp as [->|Hp]; [congruence|].
      destruct IH as (p' & Hp' & Hx' & Hr); [by eauto|].
      exists p'. split; [by right | done].
Qed.

Lemma check_command_not_on_path cmd :
  (forall p, ~ on_search_path w cmd p) ->
  check_command w cmd = check_common_paths w cmd.
Proof.
  intros H. unfold check_command.
  destruct (shutil_which w cmd) as [path|] eqn:E; [|done].
  destruct (Str.truthy path) eqn:Ht; [|done].
  exfalso. apply (H path). split; [done | by apply truthy_true].
Qed.

Lemma check_command_on_path cmd p :
  on_search_path w cmd p -> check_command w cmd = Done (OK, p).
Proof.
  intros [E Hp]. unfold check_command. rewrite E.
  by apply truthy_true in Hp as ->.
Qed.

(** C1, as the code has it: for every command name that is not empty and
    holds no path separator.  Found by [shutil.which]: [OK] with the
    resolved path, whatever the home directory.  Otherwise the home
    directory is asked for.  When it is known and an entry of that name in
    one of the five fallback directories exists and is executable:
    [WARNING], never [MISSING], with a message that names such a path; when
    it is known and there is no such entry: [MISSING].  When it cannot be
    determined, the resolver raises [RuntimeError] and gives no answer. *)
Theorem check_command_classifies cmd :
  cmd <> "" -> Str.contains "/" cmd = false ->
  (forall p, on_search_path w cmd p -> check_command w cmd = Done (OK, p)) /\
  ((forall p, ~ on_search_path w cmd p) ->
     (forall h, home w = Some h ->
        ((exists d, d ∈ fallback_dirs h /\
                    executable_at w (file_in d cmd) = true) ->
         exists d, d ∈ fallback_dirs h /\
                   executable_at w (file_in d cmd) = true /\
                   check_command w cmd
                   = Done (WARNING,
                           "Found at " +:+ file_in d cmd
                           +:+ " (Not in PATH)")) /\
        ((forall d, d ∈ fallback_dirs h ->
                    executable_at w (file_in d cmd) = false) ->
         check_command w cmd = Done (MISSING, "Not found in PATH"))) /\
     (home w = None -> check_command w cmd = Raised RuntimeError)).
Proof.
  intros _ Hcmd%no_separator_not_absolute.
  split; [apply check_command_on_path|].
  intros Hnot. rewrite (check_command_not_on_path _ Hnot).
  unfold check_common_paths. split; [|by intros ->].
  intros h ->. rewrite (common_paths_files _ _ Hcmd). split.
  - intros (d & Hd & Hx).
    destruct (probe_common_paths_warning
                (map (fun d => file_in d cmd) (fallback_dirs h)))
      as (p & Hp & Hpx & Hr).
    { exists (file_in d cmd). split; [|done].
      apply list_elem_of_fmap. by exists d. }
    apply list_elem_of_fmap in Hp as (d' & -> & Hd').
    exists d'. by rewrite Hr.
  - intros Hnone. f_equal. apply probe_common_paths_missing.
    intros p (d & -> & Hd)%list_elem_of_fmap. by apply Hnone.
Qed.

End CommandResolver.

Lemma check_command_classifies_witness :
  check_command lab_world "nmap" = Done (OK, "/usr/bin/nmap") /\
  (exists d, d ∈ fallback_dirs "/home/user" /\
     check_command lab_world "naabu"
     = Done (WARNING,
             "Found at " +:+ file_in d "naabu" +:+ " (Not in PATH)")) /\
  check_command lab_world "rustscan" = Done (MISSING, "Not found in PATH") /\
  check_command homeless_world "rustscan" = Raised RuntimeError.
Proof.
  destruct (check_command_classifies lab_world "nmap")
    as [Hok _]; [discriminate | reflexivity |].
  destruct (check_command_classifies lab_world "naabu")
    as [_ Hnaabu]; [discriminate | reflexivity |].
  destruct (check_command_classifies lab_world "rustscan")
    as [_ Hrust]; [discriminate | reflexivity |].
  destruct (check_command_classifies homeless_world "rustscan")
    as [_ Hhomeless]; [discriminate | reflexivity |].
  split; [|split; [|split]].
  - apply Hok. split; [reflexivity | discriminate].
  - destruct Hnaabu as [Hknown _].
    { intros p [Hp _]. discriminate Hp. }
    destruct (Hknown "/home/user" eq_refl) as [Hwarn _].
    destruct Hwarn as (d & Hd & _ & Hr).
    { exists "/home/user/go/bin". split; [left | reflexivity]. }
    exists d. split; assumption.
  - destruct Hrust as [Hknown _].
    { intros p [Hp _]. discriminate Hp. }
    destruct (Hknown "/home/user" eq_refl) as [_ Hmissing].
    apply Hmissing.
    apply Forall_forall. repeat (constructor; [reflexivity|]). constructor.
  - destruct Hhomeless as [_ Hunknown].
    { intros p [Hp _]. discriminate Hp. }
    apply Hunknown. reflexivity.
Defined.

(** C1 as stated fails in two ways.  For a name that begins with the
    separator [os.path.join] drops the home directory, so the first four
    probes test the name itself: [/usr] is on no search path and no
    fallback directory holds an entry of that name, yet the answer is
    [WARNING].  And when the search path does not resolve a name and the
    home directory cannot be determined, the resolver gives none of the
    three answers: [Path.home()] raises [RuntimeError]. *)
Lemma check_command_absolute_name :
  ((forall p, ~ on_search_path usr_world "/usr" p) /\
   home usr_world = Some "/home/user" /\
   (forall d, d ∈ fallback_dirs "/home/user" ->
              executable_at usr_world (file_in d "/usr") = false) /\
   check_command usr_world "/usr"
   = Done (WARNING, "Found at /usr (Not in PATH)")) /\
  ((forall p, ~ on_search_path homeless_world "nmap" p) /\
   check_command homeless_world "nmap" = Raised RuntimeError).
Proof.
  split; [split; [|split; [|split]] | split].
  - intros p [Hp _]. discriminate Hp.
  - reflexivity.
  - apply Forall_forall. repeat (constructor; [reflexivity|]). constructor.
  - reflexivity.
  - intros p [Hp _]. discriminate Hp.
  - reflexivity.
Qed.

(** ** The Variable Resolver *)

Section VariableResolver.

Variable env : gmap string string.

Lemma placeholders_not_blank v : v ∈ placeholders -> blank v = false.
Proof.
  unfold placeholders. intros H.
  repeat (apply elem_of_cons in H as [->|H]; [done|]).
  by apply elem_of_nil in H.
Qed.

Lemma check_env_var_unset var :
  env !! var = None ->
  check_env_var env var = (WARNING, "Not set (some features may fail)").
Proof. intros H. unfold check_env_var. by rewrite H. Qed.

Lemma check_env_var_set var v :
  env !! var = Some v ->
  check_env_var env var =
    if blank v then (WARNING, "Not set (some features may fail)")
    else if bool_decide (v ∈ placeholders)
         then (WARNING, "Set to placeholder value")
         else (OK, "Configured").
Proof.
  intros H. unfold check_env_var. rewrite H, set_iff_not_blank.
  by destruct (blank v).
Qed.

(** C2: a variable that is unset, empty or all whitespace gives
    [WARNING]; a value equal to one of the placeholder strings gives
    [WARNING]; every other value gives [OK] with "Configured"; the
    status is never [MISSING]. *)
Theorem check_env_var_classifies var :
  (env !! var = None ->
     check_env_var env var = (WARNING, "Not set (some features may fail)"))
  /\ (forall v, env !! var = Some v -> blank v = true ->
     check_env_var env var = (WARNING, "Not set (some features may fail)"))
  /\ (forall v, env !! var = Some v -> v ∈ placeholders ->
     check_env_var env var = (WARNING, "Set to placeholder value"))
  /\ (forall v, env !! var = Some v -> blank v = false ->
                v ∉ placeholders ->
     check_env_var env var = (OK, "Configured"))
  /\ fst (check_env_var env var) <> MISSING.
Proof.
  repeat split.
  - apply check_env_var_unset.
  - intros v Hv Hb. by rewrite (check_env_var_set _ _ Hv), Hb.
  - intros v Hv Hp. rewrite (check_env_var_set _ _ Hv).
    by rewrite (placeholders_not_blank _ Hp), bool_decide_true.
  - intros v Hv Hb Hp. rewrite (check_env_var_set _ _ Hv), Hb.
    by rewrite bool_decide_false.
  - destruct (env !! var) as [v|] eqn:Hv.
    + rewrite (check_env_var_set _ _ Hv).
      by destruct (blank v), (bool_decide (v ∈ placeholders)).
    + by rewrite check_env_var_unset.
Qed.

End VariableResolver.

Lemma check_env_var_classifies_witness :
  check_env_var ∅ "OPENAI_API_KEY"
  = (WARNING, "Not set (some features may fail)") /\
  check_env_var {["OPENAI_API_KEY" := "  "]} "OPENAI_API_KEY"
  = (WARNING, "Not set (some features may fail)") /\
  check_env_var {["OPENAI_API_KEY" := "your-key-here"]} "OPENAI_API_KEY"
  = (WARNING, "Set to placeholder value") /\
  check_env_var {["OPENAI_API_KEY" := "Your-Key-Here"]} "OPENAI_API_KEY"
  = (OK, "Configured").
Proof.
  split; [|split; [|split]].
  - apply (check_env_var_classifies ∅ "OPENAI_API_KEY"). reflexivity.
  - apply (check_env_var_classifies {["OPENAI_API_KEY" := "  "]}
             "OPENAI_API_KEY") with (v := "  "); reflexivity.
  - apply (check_env_var_classifies {["OPENAI_API_KEY" := "your-key-here"]}
             "OPENAI_API_KEY") with (v := "your-key-here");
      [reflexivity | left].
  - apply (check_env_var_classifies {["OPENAI_API_KEY" := "Your-Key-Here"]}
             "OPENAI_API_KEY") with (v := "Your-Key-Here");
      [reflexivity | reflexivity |].
    intros H. unfold placeholders in H.
    repeat (apply elem_of_cons in H as [H|H]; [discriminate H|]).
    by apply elem_of_nil in H.
Defined.

(** ** The Package Resolver *)

Section PackageResolver.

Variable w : world.

Lemma check_python_package_found package :
  find_spec w package = Spec ->
  check_python_package w package = Done (OK, "").
Proof.
  intros H. unfold check_python_package, find_spec_found. by rewrite H.
Qed.

Lemma check_python_package_not_found package :
  find_spec w package = NoSpec ->
  check_python_package w package
  = Done (MISSING, "Run: pip install " +:+ package).
Proof.
  intros H. unfold check_python_package, find_spec_found. by rewrite H.
Qed.

Lemma check_python_package_raises package e :
  find_spec w package = LookupRaises e ->
  check_python_package w package
  = if handles lookup_handler e
    then Done (MISSING, "Run: pip install " +:+ package)
    else Raised e.
Proof.
  intros H. unfold check_python_package, find_spec_found. by rewrite H.
Qed.

(** The handler takes exactly the subclasses of the three classes it
    names. *)
Lemma handles_lookup_handler e :
  handles lookup_handler e = true <->
  issubclass e ImportError = true \/ issubclass e AttributeError = true
  \/ issubclass e ValueError = true.
Proof.
  unfold handles, lookup_handler. cbn [existsb].
  rewrite !orb_true_iff. split; [|tauto].
  intros [?|[?|[?|?]]]; [tauto..|done].
Qed.

(** C5, as the code has it: an [ImportError], [AttributeError] or
    [ValueError] (or a subclass of one) raised by the module lookup is
    caught and the answer is [MISSING] with the install hint, the same as
    where the lookup finds nothing; an exception of any other class
    reaches the caller. *)
Theorem check_python_package_handles package e :
  find_spec w package = LookupRaises e ->
  ((issubclass e ImportError = true \/ issubclass e AttributeError = true
    \/ issubclass e ValueError = true) ->
   check_python_package w package
   = Done (MISSING, "Run: pip install " +:+ package) /\
   forall w', find_spec w' package = NoSpec ->
              check_python_package w package = check_python_package w' package)
  /\ (issubclass e ImportError = false ->
      issubclass e AttributeError = false ->
      issubclass e ValueError = false ->
      check_python_package w package = Raised e).
Proof.
  intros H. rewrite (check_python_package_raises _ _ H). split.
  - intros He. apply handles_lookup_handler in He as ->.
    split; [done|]. intros w' Hw'.
    unfold check_python_package, find_spec_found. by rewrite Hw'.
  - intros H1 H2 H3.
    destruct (handles lookup_handler e) eqn:He; [|done].
    apply handles_lookup_handler in He as [?|[?|?]]; congruence.
Qed.

(** Whatever the lookup does, the install hint for the catalog entry
    [dnspython] never names [dnspython]. *)
Lemma dnspython_hint_names_module :
  check_python_package w (module_of "dnspython")
  <> Done (MISSING, "Run: pip install dnspython").
Proof.
  change (module_of "dnspython") with "dns".
  unfold check_python_package, find_spec_found.
  destruct (find_spec w "dns") as [| |e]; [done | done |].
  by destruct (handles lookup_handler e).
Qed.

End PackageResolver.

Lemma check_python_package_handles_witness :
  check_python_package stale_parent_world "os.nothing"
  = Done (MISSING, "Run: pip install os.nothing")
  /\ check_python_package stale_parent_world "os.nothing"
     = check_python_package bare_world "os.nothing"
  /\ check_python_package broken_package_world "google.generativeai"
     = Raised SyntaxError.
Proof.
  destruct (check_python_package_handles stale_parent_world
              "os.nothing" ModuleNotFoundError eq_refl) as [Hcaught _].
  destruct Hcaught as [Hmissing Hsame]; [left; reflexivity|].
  split; [exact Hmissing|]. split; [apply Hsame; reflexivity|].
  apply (check_python_package_handles broken_package_world
           "google.generativeai" SyntaxError eq_refl); reflexivity.
Defined.

(** C5 as stated fails: the handler names three classes only.  When the
    lookup of [google.generativeai] raises [SyntaxError] (the parent
    package it imports does not compile), the exception reaches the caller
    and no [MISSING] is returned. *)
Lemma check_python_package_propagates :
  find_spec broken_package_world "google.generativeai"
  = LookupRaises SyntaxError /\
  check_python_package broken_package_world "google.generativeai"
  = Raised SyntaxError /\
  check_python_package broken_package_world "google.generativeai"
  <> Done (MISSING, "Run: pip install google.generativeai").
Proof. by repeat split. Qed.

(** C8 at its failing input: the catalog entry [dnspython] is probed under
    the module name [dns], and the hint of the probe is built from the
    name it was given.  With no [dns] module the reported line tells the
    user to install [dns]; in no world does it name [dnspython]. *)
Theorem dnspython_install_hint :
  module_of "dnspython" = "dns" /\
  check_python_package bare_world (module_of "dnspython")
  = Done (MISSING, "Run: pip install dns") /\
  status_line "dnspython" MISSING "Run: pip install dns"
    ∈ stdout (snd (main bare_world start)) /\
  forall w, check_python_package w (module_of "dnspython")
            <> Done (MISSING, "Run: pip install dnspython").
Proof.
  split; [done|]. split; [done|]. split.
  - vm_compute. do 12 right. left.
  - apply dnspython_hint_names_module.
Qed.

(** ** The Settings File Loader, line by line *)

Section SettingsLines.

Implicit Types (line k v : string) (s : process).

(** Unpacking the two parts never fails on a line that passed the test
    for [=]: the loader either skips the line or assigns. *)
Lemma load_line_assignment line :
  load_line line =
    match assignment line with
    | Some (k, v) => environ_set k v
    | None => ret tt
    end.
Proof.
  unfold load_line, assignment.
  destruct (Str.contains "=" line) eqn:Heq; [|done].
  destruct (Str.startswith line "#"); [done|]. simpl.
  destruct (partition_is_Some "=" (Str.strip line)) as [[k v] Hkv].
  { by rewrite contains_strip. }
  unfold Str.split1. rewrite Hkv. done.
Qed.

Lemma assignment_comment line :
  Str.startswith line "#" = true -> assignment line = None.
Proof. intros H. unfold assignment. rewrite H. by rewrite andb_false_r. Qed.

Lemma assignment_no_separator line :
  Str.contains "=" line = false -> assignment line = None.
Proof. intros H. unfold assignment. by rewrite H. Qed.

(** The split is at the first [=] of the stripped line. *)
Lemma assignment_first_separator line k v :
  assignment line = Some (k, v) ->
  Str.strip line = k +:+ "=" +:+ v /\ Str.contains "=" k = false.
Proof.
  unfold assignment.
  destruct (Str.contains "=" line && negb (Str.startswith line "#"));
    [|done].
  apply partition_Some.
Qed.

(** The line format: the split is at the first [=] only, a line that
    starts with [#] is skipped even when it holds [=], and so is a line
    without [=]; a skipped line leaves the process as it was. *)
Lemma settings_line_parsing :
  (forall line k v, assignment line = Some (k, v) ->
     Str.strip line = k +:+ "=" +:+ v /\ Str.contains "=" k = false) /\
  assignment "KEY=value with=equals" = Some ("KEY", "value with=equals") /\
  (forall line s, Str.startswith line "#" = true ->
     load_line line s = (Done tt, s)) /\
  (forall line s, Str.contains "=" line = false ->
     load_line line s = (Done tt, s)).
Proof.
  split; [apply assignment_first_separator|]. split; [done|]. split.
  - intros line s H. by rewrite load_line_assignment, assignment_comment.
  - intros line s H.
    by rewrite load_line_assignment, assignment_no_separator.
Qed.

Lemma environ_set_accepted k v s :
  k <> "" -> Str.contains "=" k = false ->
  Str.contains NUL k = false -> Str.contains NUL v = false ->
  environ_set k v s
  = (Done tt, {| environ := <[k := v]> (environ s); stdout := stdout s |}).
Proof.
  intros Hk Heq Hk0 Hv0. unfold environ_set, environ_setitem.
  rewrite Hk0, Hv0, Heq. by apply truthy_true in Hk as ->.
Qed.

Lemma assignment_no_NUL line k v :
  assignment line = Some (k, v) -> Str.contains NUL line = false ->
  Str.contains NUL k = false /\ Str.contains NUL v = false.
Proof.
  intros [Hs _]%assignment_first_separator H0.
  rewrite <- (contains_strip NUL) in H0 by done.
  rewrite Hs, contains_append in H0.
  apply orb_false_iff in H0 as [? H0].
  change ("=" +:+ v) with (String "=" v) in H0. simpl in H0. done.
Qed.

(** A storable assignment line writes its value under its key. *)
Lemma load_line_storable line k v s :
  assignment line = Some (k, v) -> storable line ->
  load_line line s
  = (Done tt, {| environ := <[k := v]> (environ s); stdout := stdout s |}).
Proof.
  intros Hkv Hst. rewrite load_line_assignment, Hkv.
  destruct (Hst _ _ Hkv) as [Hk H0].
  destruct (assignment_no_NUL _ _ _ Hkv H0).
  destruct (assignment_first_separator _ _ _ Hkv) as [_ ?].
  by apply environ_set_accepted.
Qed.

(** C4, as the code has it: the line is stripped as a whole and then
    split at its first [=].  The key has no whitespace before it and the
    value none after it; what stands next to the [=] is kept, and key and
    value are injected as they are. *)
Theorem assignment_strips_line_only line k v :
  assignment line = Some (k, v) ->
  Str.strip line = k +:+ "=" +:+ v /\
  Str.lstrip k = k /\ Str.rstrip v = v /\
  load_line line = environ_set k v.
Proof.
  intros Hkv.
  destruct (assignment_first_separator _ _ _ Hkv) as [Hs _].
  split; [done|]. repeat split.
  - apply (lstrip_prefix k ("=" +:+ v)); [|done].
    rewrite <- Hs. apply strip_no_leading_space.
  - apply (rstrip_suffix (k +:+ "=") v).
    rewrite append_assoc, <- Hs. apply strip_no_trailing_space.
  - by rewrite load_line_assignment, Hkv.
Qed.

(** C10: the comment test looks at the raw line.  A line that begins
    with whitespace and whose first other character is [#] is not
    skipped: when it holds [=] it is read as an assignment whose key
    begins with [#], and that key is written to the environment. *)
Theorem indented_comment_is_assignment line c rest t :
  line = String c rest -> Str.isspace c = true ->
  Str.lstrip line = String "#" t ->
  Str.contains "=" line = true ->
  exists k v,
    assignment line = Some (k, v) /\
    Str.startswith k "#" = true /\
    load_line line = environ_set k v /\
    (Str.contains NUL line = false -> forall s,
       load_line line s
       = (Done tt,
          {| environ := <[k := v]> (environ s); stdout := stdout s |})).
Proof.
  intros -> Hc Hl Heq.
  destruct (strip_head _ _ _ Hl) as [r Hr].
  assert (Str.startswith (String c rest) "#" = false) as Hstart.
  { simpl. destruct (Ascii.eqb_spec c "#") as [->|]; [done | done]. }
  assert (Str.contains "=" (String "#" r) = true) as Hr_eq.
  { rewrite <- Hr. by rewrite contains_strip. }
  destruct (partition_is_Some "=" r) as [[k' v] Hkv]; [done|].
  assert (assignment (String c rest) = Some (String "#" k', v)) as Ha.
  { unfold assignment. rewrite Heq, Hstart, Hr. simpl. by rewrite Hkv. }
  exists (String "#" k'), v. split; [done|]. split; [by destruct k'|]. split.
  - by rewrite load_line_assignment, Ha.
  - intros H0 s. apply load_line_storable; [done|].
    intros k2 v2 Hkv2. rewrite Ha in Hkv2. by injection Hkv2 as <- <-.
Qed.

End SettingsLines.

Lemma assignment_strips_line_only_witness :
  Str.strip ("KEY = value" +:+ NL) = "KEY = value" /\
  Str.lstrip "KEY " = "KEY " /\ Str.rstrip " value" = " value" /\
  load_line ("KEY = value" +:+ NL) = environ_set "KEY " " value".
Proof.
  exact (assignment_strips_line_only ("KEY = value" +:+ NL)
           "KEY " " value" eq_refl).
Defined.

(** C4 as stated fails: the parts around the [=] are not stripped.  The
    line [KEY = value] injects the key [KEY ] with a trailing space and
    the value [ value] with a leading space; nothing is stored under
    [KEY]. *)
Lemma key_and_value_keep_inner_space :
  assignment ("KEY = value" +:+ NL) = Some ("KEY ", " value") /\
  load_line ("KEY = value" +:+ NL) start
  = (Done tt, {| environ := {["KEY " := " value"]}; stdout := [] |}) /\
  environ (snd (load_line ("KEY = value" +:+ NL) start)) !! "KEY" = None.
Proof. by repeat split. Qed.

Lemma indented_comment_is_assignment_witness :
  exists k v,
    assignment (" #FOO=bar" +:+ NL) = Some (k, v) /\
    Str.startswith k "#" = true /\
    load_line (" #FOO=bar" +:+ NL) start
    = (Done tt, {| environ := <[k := v]> ∅; stdout := [] |}).
Proof.
  destruct (indented_comment_is_assignment
              (" #FOO=bar" +:+ NL) " " ("#FOO=bar" +:+ NL) ("FOO=bar" +:+ NL)
              eq_refl eq_refl eq_refl eq_refl)
    as (k & v & Ha & Hk & _ & Hload).
  exists k, v. split; [assumption|]. split; [assumption|].
  apply Hload. reflexivity.
Defined.

(** C3 at its failing input: the line [=value] holds [=] and does not
    start with [#], so it is read as an assignment with the empty key, and
    the environment refuses the empty name.  The exception leaves
    [load_line], and a settings file with that line ends the run with a
    traceback and exit status 1, before the variable checks and the
    summary. *)
Theorem empty_key_line_raises :
  assignment ("=value" +:+ NL) = Some ("", "value") /\
  (forall s, load_line ("=value" +:+ NL) s = (Raised OSError, s)) /\
  (main empty_key_world start).1 = Raised OSError /\
  (run_script empty_key_world start).1 = 1.
Proof. split; [done|]. split; [done|]. split; by vm_compute. Qed.

(** ** Running [main] *)

Section Run.

Variable w : world.
Implicit Types (s : process) (ls : list string).

(* The catalogs are not unfolded when terms are compared. *)
#[local] Opaque sys_tools sec_tools py_packages.

Lemma emit_emit ls1 ls2 s : emit ls2 (emit ls1 s) = emit (ls1 ++ ls2) s.
Proof. unfold emit. simpl. by rewrite app_assoc. Qed.

Lemma emit_nil s : emit [] s = s.
Proof. unfold emit. destruct s. simpl. by rewrite app_nil_r. Qed.

Lemma print_status_run name st msg s :
  print_status name st msg s = (Done tt, emit [status_line name st msg] s).
Proof. by destruct st. Qed.

Lemma for_each_app {A} (l1 l2 : list A) (body : A -> py unit) s :
  for_each (l1 ++ l2) body s =
    match for_each l1 body s with
    | (Done _, s') => for_each l2 body s'
    | (Raised e, s') => (Raised e, s')
    end.
Proof.
  revert s. induction l1 as [|x l1 IH]; intros s; simpl; [done|].
  unfold bind. destruct (body x s) as [[[]|e] s1]; [apply IH | done].
Qed.

(** *** The tool probes *)

Lemma tools_resolvable_answer :
  tools_resolvable w -> probes_answer w (sys_tools ++ sec_tools).
Proof.
  intros [[h Hh]|Hpath] tool Htool.
  - unfold check_command, check_common_paths. rewrite Hh.
    destruct (shutil_which w tool) as [path|]; [|by eexists].
    destruct (Str.truthy path); by eexists.
  - destruct (Hpath tool Htool) as [p Hp].
    exists (OK, p). by apply check_command_on_path.
Qed.

Lemma probe_lines_cons tool tools r :
  check_command w tool = Done r ->
  probe_lines w (tool :: tools) = probe_line tool r :: probe_lines w tools.
Proof. intros H. unfold probe_lines. cbn [omap list_omap]. by rewrite H. Qed.

Lemma for_each_probes_run tools s :
  probes_answer w tools ->
  for_each tools (fun tool =>
    r <- lift (check_command w tool) ;;
    let '(st, msg) := r in
    print_status tool st msg) s
  = (Done tt, emit (probe_lines w tools) s).
Proof.
  revert s. induction tools as [|tool tools IH]; intros s H.
  - simpl. unfold ret. by rewrite emit_nil.
  - destruct (H tool) as [[st msg] Hr]; [left|].
    cbn [for_each]. unfold bind at 1 2, lift. rewrite Hr.
    rewrite print_status_run, IH, emit_emit.
    + by rewrite (probe_lines_cons _ _ _ Hr).
    + intros t Ht. apply H. by right.
Qed.

Lemma check_system_tools_run s :
  probes_answer w sys_tools ->
  check_system_tools w s = (Done tt, emit (system_report w) s).
Proof.
  intros H. unfold check_system_tools, bind at 1, print.
  by rewrite for_each_probes_run, emit_emit.
Qed.

Lemma count_missing_cons st sts :
  count_missing (st :: sts)
  = (if bool_decide (st = MISSING) then 1 else 0) + count_missing sts.
Proof.
  unfold count_missing. rewrite filter_cons.
  case_bool_decide; case_decide; done.
Qed.

(** When the loop over the security tools returns, every probe has
    answered and printed its line, and the list it returns has grown by
    the number of [MISSING] answers. *)
Lemma probe_security_tools_done tools missing s m s' :
  probe_security_tools w tools missing s = (Done m, s') ->
  length m = length missing
             + count_missing
                 (omap (fun tool => probe_status (check_command w tool))
                       tools) /\
  s' = emit (probe_lines w tools) s /\ probes_answer w tools.
Proof.
  revert missing s. induction tools as [|tool tools IH]; intros missing s.
  - simpl. intros [= <- <-]. rewrite emit_nil. split; [|split]; [done..|].
    intros t Ht. by apply elem_of_nil in Ht.
  - cbn [probe_security_tools]. unfold bind at 1, lift.
    destruct (check_command w tool) as [[st msg]|e] eqn:Hr; [|done].
    unfold bind. rewrite print_status_run. intros Hrest.
    apply IH in Hrest as (Hlen & -> & Hans).
    split; [|split].
    + rewrite Hlen. cbn [omap list_omap]. rewrite Hr. cbn [probe_status fst].
      rewrite count_missing_cons.
      case_bool_decide; [|done]. rewrite length_app. simpl. lia.
    + by rewrite emit_emit, (probe_lines_cons _ _ _ Hr).
    + intros t [->|Ht]%elem_of_cons; [by eexists | by apply Hans].
Qed.

Lemma probe_security_tools_returns tools missing s :
  probes_answer w tools ->
  exists m, probe_security_tools w tools missing s
            = (Done m, emit (probe_lines w tools) s).
Proof.
  revert missing s. induction tools as [|tool tools IH]; intros missing s H.
  - exists missing. simpl. unfold ret. by rewrite emit_nil.
  - destruct (H tool) as [[st msg] Hr]; [left|].
    cbn [probe_security_tools]. unfold bind at 1, lift. rewrite Hr.
    unfold bind. rewrite print_status_run.
    edestruct IH as [m ->]; [intros t Ht; apply H; by right|].
    exists m. by rewrite emit_emit, (probe_lines_cons _ _ _ Hr).
Qed.

Lemma check_security_tools_done s m s' :
  check_security_tools w s = (Done m, s') ->
  length m = count_missing (sec_statuses w) /\
  s' = emit (security_report w) s.
Proof.
  unfold check_security_tools, bind, print.
  intros (Hlen & -> & _)%probe_security_tools_done.
  split; [exact Hlen|]. unfold security_report.
  rewrite emit_emit. reflexivity.
Qed.

Lemma check_security_tools_run s :
  probes_answer w sec_tools ->
  exists m, check_security_tools w s
            = (Done m, emit (security_report w) s) /\
            length m = count_missing (sec_statuses w).
Proof.
  intros H. unfold check_security_tools, bind, print.
  destruct (probe_security_tools_returns sec_tools []
              (emit [NL +:+ CYAN +:+ "[+] Checking Security Tools"
                     +:+ RESET] s) H) as [m Hm].
  exists m. rewrite Hm. unfold security_report. rewrite emit_emit.
  split; [reflexivity|].
  apply probe_security_tools_done in Hm as [Hlen _]. exact Hlen.
Qed.

Lemma print_summary_run missing s :
  print_summary missing s
  = (Done tt, emit (summary_report (length missing)) s).
Proof.
  unfold print_summary, bind, print.
  destruct missing as [|tool missing]; by rewrite !emit_emit.
Qed.

(** *** The package checks *)

Lemma check_python_package_tolerated pkg :
  (forall e, find_spec w (module_of pkg) = LookupRaises e ->
             handles lookup_handler e = true) ->
  check_python_package w (module_of pkg) = Done (package_result w pkg).
Proof.
  intros H. unfold check_python_package, find_spec_found, package_result.
  destruct (find_spec w (module_of pkg)) as [| |e]; [done | done |].
  by rewrite (H e).
Qed.

(** With lookups that raise nothing unhandled the loop over the packages
    returns, whatever the lookups do to the process. *)
Lemma for_each_packages_returns pkgs s :
  (forall pkg e, pkg ∈ pkgs ->
     find_spec w (module_of pkg) = LookupRaises e ->
     handles lookup_handler e = true) ->
  exists s',
    for_each pkgs (fun pkg =>
      r <- call_check_python_package w (module_of pkg) ;;
      let '(st, msg) := r in print_status pkg st msg) s
    = (Done tt, s').
Proof.
  revert s. induction pkgs as [|pkg pkgs IH]; intros s H; simpl.
  - by eexists.
  - unfold bind at 1 2, call_check_python_package.
    rewrite check_python_package_tolerated
      by (intros e; apply H; by left).
    destruct (package_result w pkg) as [st msg].
    rewrite print_status_run. apply IH.
    intros pkg' e Hin. apply H. by right.
Qed.


Lemma check_python_libraries_returns s :
  lookups_tolerated w ->
  exists s', check_python_libraries w s = (Done tt, s').
Proof.
  intros H. unfold check_python_libraries, bind at 1, print.
  apply for_each_packages_returns. intros pkg e Hin. by apply H.
Qed.


(** *** The variable checks *)

(** The variable checks read the environment they find and leave it as
    it is. *)
Lemma for_each_variables_run keys s :
  for_each keys (fun key =>
    env <- get_environ ;;
    let '(st, msg) := check_env_var env key in
    print_status key st msg) s
  = (Done tt,
     emit (map (fun key => probe_line key (check_env_var (environ s) key))
               keys) s).
Proof.
  revert s. induction keys as [|key keys IH]; intros s; simpl.
  - unfold ret. by rewrite emit_nil.
  - unfold bind at 1 2, get_environ. unfold probe_line at 1.
    destruct (check_env_var (environ s) key) as [st msg].
    by rewrite print_status_run, IH, emit_emit.
Qed.

(** *** Loading the settings file *)

Lemma load_line_done line s s' :
  load_line line s = (Done tt, s') ->
  stdout s' = stdout s /\
  environ s' = match assignment line with
               | Some (k, v) => <[k := v]> (environ s)
               | None => environ s
               end.
Proof.
  rewrite load_line_assignment.
  destruct (assignment line) as [[k v]|].
  - unfold environ_set.
    destruct (environ_setitem k v (environ s)) as [env'|e] eqn:E; [|done].
    intros [= <-]. simpl. split; [done|].
    unfold environ_setitem in E.
    repeat match type of E with
           | (if ?b then _ else _) = _ => destruct b; [done|]
           end.
    by injection E as <-.
  - by intros [= <-].
Qed.

(** A key that no line assigns keeps the value it had. *)
Lemma load_lines_keep key lines s s' :
  for_each lines load_line s = (Done tt, s') ->
  (forall line k v, line ∈ lines -> assignment line = Some (k, v) ->
                    k <> key) ->
  environ s' !! key = environ s !! key /\ stdout s' = stdout s.
Proof.
  revert s. induction lines as [|line lines IH]; intros s; simpl.
  - by intros [= <-].
  - unfold bind.
    destruct (load_line line s) as [[[]|e] s1] eqn:E; [|done].
    intros Hrest Hkeys. apply load_line_done in E as [Hout Henv].
    destruct (IH s1 Hrest) as [IHenv IHout].
    { intros l k v Hl. apply Hkeys. by right. }
    rewrite IHenv, IHout, Henv, Hout. split; [|done].
    destruct (assignment line) as [[k v]|] eqn:Ha; [|done].
    apply lookup_insert_ne. eapply Hkeys; [by left | done].
Qed.

Lemma load_lines_storable lines s :
  (forall line, line ∈ lines -> storable line) ->
  exists env', for_each lines load_line s
               = (Done tt, {| environ := env'; stdout := stdout s |}).
Proof.
  revert s. induction lines as [|line lines IH]; intros s H; simpl.
  - exists (environ s). by destruct s.
  - unfold bind.
    assert (exists env1, load_line line s
              = (Done tt, {| environ := env1; stdout := stdout s |}))
      as [env1 ->].
    { destruct (assignment line) as [[k v]|] eqn:Ha.
      - eexists. apply load_line_storable; [done|]. apply H. by left.
      - exists (environ s). rewrite load_line_assignment, Ha. by destruct s. }
    apply (IH {| environ := env1; stdout := stdout s |}).
    intros l Hl. apply H. by right.
Qed.

Lemma check_configuration_run s :
  check_configuration w s =
    match load_settings w
            (emit [NL +:+ CYAN +:+ "[+] Checking Configuration (.env)"
                   +:+ RESET] s) with
    | (Done _, s1) => (Done tt, emit (variables_report (environ s1)) s1)
    | (Raised e, s1) => (Raised e, s1)
    end.
Proof.
  unfold check_configuration, bind at 1 2, print.
  destruct (load_settings w _) as [[[]|e] s1]; [|done].
  apply for_each_variables_run.
Qed.

(** *** The whole run *)

Lemma main_run s :
  main w s =
    match check_system_tools w (emit banner s) with
    | (Done _, s1) =>
        match check_python_libraries w s1 with
        | (Done _, s2) =>
            match check_security_tools w s2 with
            | (Done missing, s3) =>
                match check_configuration w s3 with
                | (Done _, s4) =>
                    (Done tt, emit (summary_report (length missing)) s4)
                | (Raised e, s4) => (Raised e, s4)
                end
            | (Raised e, s3) => (Raised e, s3)
            end
        | (Raised e, s2) => (Raised e, s2)
        end
    | (Raised e, s1) => (Raised e, s1)
    end.
Proof.
  unfold main, bind at 1 2, print. rewrite emit_emit.
  change ([NL +:+ CYAN +:+ "NeuroSploit Tool Verification Script" +:+ RESET]
          ++ [rule]) with banner.
  unfold bind at 1.
  destruct (check_system_tools w _) as [[[]|e] s1]; [|done].
  unfold bind at 1.
  destruct (check_python_libraries w _) as [[[]|e] s2]; [|done].
  unfold bind at 1.
  destruct (check_security_tools w _) as [[missing|e] s3]; [|done].
  unfold bind at 1.
  destruct (check_configuration w _) as [[[]|e] s4]; [|done].
  by rewrite print_summary_run.
Qed.

(** A run that returns has loaded the settings, then printed the
    variable checks for the environment it ends with, then the
    summary. *)
Lemma main_done s s' :
  main w s = (Done tt, s') ->
  exists s3 s4,
    load_settings w s3 = (Done tt, s4) /\
    environ s' = environ s4 /\
    stdout s' = stdout s4 ++ variables_report (environ s')
                ++ summary_report (count_missing (sec_statuses w)).
Proof.
  rewrite main_run.
  destruct (check_system_tools w _) as [[[]|e] s1]; [|done].
  destruct (check_python_libraries w _) as [[[]|e] s2]; [|done].
  destruct (check_security_tools w _) as [[missing|e] s3] eqn:Hsec; [|done].
  apply check_security_tools_done in Hsec as [Hlen _].
  rewrite check_configuration_run.
  destruct (load_settings w _) as [[[]|e] s4] eqn:Hload; [|done].
  intros [= <-]. eexists _, s4. split; [exact Hload|].
  split; [done|]. simpl. by rewrite Hlen, <- app_assoc.
Qed.

Lemma load_settings_returns s :
  settings_loadable w -> exists s', load_settings w s = (Done tt, s').
Proof.
  unfold settings_loadable, load_settings.
  destruct (dotenv w) as [|e|e|ls e|ls]; [|done|done|done|].
  - intros _. rewrite print_status_run. by eexists.
  - intros H. unfold bind. rewrite print_status_run.
    destruct (load_lines_storable ls
                (emit [status_line ".env file" OK "Found"] s) H)
      as [env' ->].
    by eexists.
Qed.

(** A run whose tool probes answer, whose lookups raise nothing unhandled
    and whose settings file can be loaded returns. *)
Lemma main_returns s :
  tools_resolvable w -> lookups_tolerated w -> settings_loadable w ->
  exists s', main w s = (Done tt, s').
Proof.
  intros Htools%tools_resolvable_answer Hl Hs. rewrite main_run.
  rewrite check_system_tools_run
    by (intros t Ht; apply Htools, elem_of_app; by left).
  destruct (check_python_libraries_returns
              (emit (system_report w) (emit banner s)) Hl) as [s2 ->].
  destruct (check_security_tools_run s2) as (m & -> & _).
  { intros t Ht. apply Htools, elem_of_app. by right. }
  rewrite check_configuration_run.
  destruct (load_settings_returns
              (emit [NL +:+ CYAN +:+ "[+] Checking Configuration (.env)"
                     +:+ RESET] (emit (security_report w) s2)) Hs)
    as [s4 ->].
  by eexists.
Qed.




End Run.

(** ** The summary *)

(** C6: the summary is decided by the statuses of the security-tool probes
    alone.  A run in a world whose tool probes answer, whose lookups are
    tolerated and whose settings can be loaded returns; and whenever a run
    returns, its last lines are
    the all-clear message between the two rules when no security-tool probe
    answered [MISSING], and otherwise give the number of [MISSING] security
    tools.  Any other world whose security-tool probes answer alike ends
    with the same summary, whatever its system tools and packages. *)
Theorem summary_counts_missing_security_tools w s :
  let n := count_missing (sec_statuses w) in
  (tools_resolvable w -> lookups_tolerated w -> settings_loadable w ->
   exists s', main w s = (Done tt, s')) /\
  forall s', main w s = (Done tt, s') ->
  (n = 0 -> exists pre,
     stdout s' = pre ++
       [ NL +:+ rule;
         GREEN +:+ "All checked tools are installed!" +:+ RESET;
         rule +:+ NL ]) /\
  (n <> 0 -> exists pre,
     stdout s' = pre ++
       [ NL +:+ rule;
         YELLOW +:+ "Warning: " +:+ pretty n
           +:+ " tools are missing or not in PATH." +:+ RESET;
         "Run usage tests to see if these are critical for your workflow.";
         "To install missing tools, run: ./install_tools.sh";
         "If tools show as WARNING (Found at...), run: source ~/.bashrc";
         rule +:+ NL ]) /\
  (forall w2 s2 s2', sec_statuses w2 = sec_statuses w ->
     main w2 s2 = (Done tt, s2') ->
     exists pre pre2 summary,
       stdout s' = pre ++ summary /\ stdout s2' = pre2 ++ summary /\
       summary = summary_report n).
Proof.
  intros n. split; [apply main_returns|].
  intros s' Hrun.
  destruct (main_done _ _ _ Hrun) as (s3 & s4 & _ & _ & Hout).
  fold n in Hout. split; [|split].
  - intros Hn. rewrite Hn in Hout.
    exists (stdout s4 ++ variables_report (environ s')).
    by rewrite Hout, <- app_assoc.
  - intros Hn. destruct n as [|m] eqn:En; [done|].
    exists (stdout s4 ++ variables_report (environ s')).
    by rewrite Hout, <- app_assoc.
  - intros w2 s2 s2' Hsame Hrun2.
    destruct (main_done _ _ _ Hrun2) as (s3' & s4' & _ & _ & Hout2).
    rewrite Hsame in Hout2. fold n in Hout2.
    exists (stdout s4 ++ variables_report (environ s')),
           (stdout s4' ++ variables_report (environ s2')),
           (summary_report n).
    by rewrite Hout, Hout2, <- !app_assoc.
Qed.

Lemma summary_counts_missing_security_tools_witness :
  (exists pre,
     stdout (main full_world start).2 = pre ++
       [ NL +:+ rule;
         GREEN +:+ "All checked tools are installed!" +:+ RESET;
         rule +:+ NL ]) /\
  (exists pre,
     stdout (main lab_world start).2 = pre ++
       [ NL +:+ rule;
         YELLOW +:+ "Warning: 22 tools are missing or not in PATH." +:+ RESET;
         "Run usage tests to see if these are critical for your workflow.";
         "To install missing tools, run: ./install_tools.sh";
         "If tools show as WARNING (Found at...), run: source ~/.bashrc";
         rule +:+ NL ]).
Proof.
  split.
  - assert (main full_world start = (Done tt, (main full_world start).2))
      as Hrun by (vm_compute; reflexivity).
    destruct (summary_counts_missing_security_tools full_world start)
      as [_ Hsum].
    destruct (Hsum _ Hrun) as (Hclear & _ & _).
    apply Hclear. vm_compute. reflexivity.
  - assert (main lab_world start = (Done tt, (main lab_world start).2))
      as Hrun by (vm_compute; reflexivity).
    destruct (summary_counts_missing_security_tools lab_world start)
      as [_ Hsum].
    destruct (Hsum _ Hrun) as (_ & Hcount & _).
    apply Hcount. vm_compute. discriminate.
Defined.

(** ** Settings before variables *)

(** C7, as the code has it: the variable checks of a run that returns see
    the environment the loader left, and a value the loader injects
    replaces the one the environment had.  When the settings file holds the
    line [ANTHROPIC_API_KEY=sk-real123] and no later line assigns that key
    again, the check of [ANTHROPIC_API_KEY] reports [OK], "Configured". *)
Theorem settings_override_environment w s s' before eol after :
  eol = "" \/ eol = NL ->
  dotenv w = Lines (before ++ (anthropic_line +:+ eol) :: after) ->
  (forall line k v, line ∈ after -> assignment line = Some (k, v) ->
                    k <> "ANTHROPIC_API_KEY") ->
  main w s = (Done tt, s') ->
  environ s' !! "ANTHROPIC_API_KEY" = Some "sk-real123" /\
  check_env_var (environ s') "ANTHROPIC_API_KEY" = (OK, "Configured") /\
  status_line "ANTHROPIC_API_KEY" OK "Configured"
    ∈ variables_report (environ s') /\
  exists pre,
    stdout s' = pre ++ variables_report (environ s')
                ++ summary_report (count_missing (sec_statuses w)).
Proof.
  intros Heol Hfile Hafter Hrun.
  destruct (main_done _ _ _ Hrun) as (s3 & s4 & Hload & Henv & Hout).
  assert (environ s' !! "ANTHROPIC_API_KEY" = Some "sk-real123") as Hkey.
  { rewrite Henv. unfold load_settings in Hload. rewrite Hfile in Hload.
    unfold bind in Hload. rewrite print_status_run in Hload.
    rewrite for_each_app in Hload.
    destruct (for_each before load_line _) as [[[]|e] s5]; [|done].
    cbn [for_each] in Hload. unfold bind in Hload.
    destruct (load_line (anthropic_line +:+ eol) s5) as [[[]|e] s6] eqn:E;
      [|done].
    apply load_line_done in E as [_ E].
    assert (assignment (anthropic_line +:+ eol)
            = Some ("ANTHROPIC_API_KEY", "sk-real123")) as Ha
      by (by destruct Heol as [-> | ->]).
    rewrite Ha in E.
    destruct (load_lines_keep "ANTHROPIC_API_KEY" _ _ _ Hload Hafter)
      as [-> _].
    rewrite E. apply lookup_insert_eq. }
  assert (check_env_var (environ s') "ANTHROPIC_API_KEY" = (OK, "Configured"))
    as Hcheck by (unfold check_env_var; by rewrite Hkey).
  split; [done|]. split; [done|]. split; [|by eexists].
  unfold variables_report, api_keys. cbn [map].
  unfold probe_line at 3. rewrite Hcheck.
  do 2 right. left.
Qed.

Lemma settings_override_environment_witness :
  check_env_var (environ placeholder_start) "ANTHROPIC_API_KEY"
  = (WARNING, "Set to placeholder value") /\
  check_env_var (environ (main keyed_world placeholder_start).2)
    "ANTHROPIC_API_KEY"
  = (OK, "Configured").
Proof.
  split; [reflexivity|].
  assert (main keyed_world placeholder_start
          = (Done tt, (main keyed_world placeholder_start).2)) as Hrun
    by (vm_compute; reflexivity).
  refine (proj1 (proj2 (settings_override_environment
            keyed_world placeholder_start
            (main keyed_world placeholder_start).2
            ["# keys" +:+ NL] NL ["OPENAI_API_KEY=sk-other" +:+ NL]
            (or_intror eq_refl) eq_refl _ Hrun))).
  intros line k v Hline Ha.
  apply list_elem_of_singleton in Hline. subst line.
  vm_compute in Ha. injection Ha as <- _. discriminate.
Defined.

(** C7 as stated fails when the file assigns the key again further down:
    the later line replaces the value of the earlier one.  Here the file
    holds the line [ANTHROPIC_API_KEY=sk-real123], the run returns, and the
    check reports [WARNING] for a placeholder. *)
Lemma later_line_replaces_key :
  (exists ls, dotenv rekeyed_world = Lines ls /\
              (anthropic_line +:+ NL) ∈ ls) /\
  (main rekeyed_world start).1 = Done tt /\
  check_env_var (environ (main rekeyed_world start).2) "ANTHROPIC_API_KEY"
  = (WARNING, "Set to placeholder value") /\
  status_line "ANTHROPIC_API_KEY" OK "Configured"
    ∉ stdout (main rekeyed_world start).2.
Proof.
  split; [|split; [|split]].
  - eexists. split; [reflexivity | left].
  - by vm_compute.
  - by vm_compute.
  - apply (bool_decide_unpack _). by vm_compute.
Qed.

(** ** Exit status *)





(** * Further properties of the probes *)

(** ** [check_command]: order of the candidates, absolute names *)

(** When the search path does not resolve the command and the home
    directory is known, the candidates are tried in the order of
    [common_paths] and the warning names the first one that exists and is
    executable, whatever holds of the later ones. *)
Theorem check_command_first_candidate w cmd h before p after :
  (forall q, ~ on_search_path w cmd q) ->
  home w = Some h ->
  common_paths h cmd = before ++ p :: after ->
  (forall q, q ∈ before -> executable_at w q = false) ->
  executable_at w p = true ->
  check_command w cmd
  = Done (WARNING, "Found at " +:+ p +:+ " (Not in PATH)").
Proof.
  intros Hnot Hhome Hsplit Hbefore Hp.
  rewrite (check_command_not_on_path _ _ Hnot).
  unfold check_common_paths. rewrite Hhome, Hsplit. f_equal.
  clear Hsplit. induction before as [|q before IH]; simpl.
  - by rewrite Hp.
  - rewrite (Hbefore q) by left. apply IH.
    intros q' Hq'. apply Hbefore. by right.
Qed.

Lemma check_command_first_candidate_witness :
  executable_at twice_world "/home/user/.cargo/bin/httpx" = true /\
  check_command twice_world "httpx"
  = Done (WARNING, "Found at /home/user/go/bin/httpx (Not in PATH)").
Proof.
  split; [reflexivity|].
  apply (check_command_first_candidate twice_world "httpx" "/home/user" []
           "/home/user/go/bin/httpx"
           ["/home/user/.cargo/bin/httpx"; "/home/user/.local/bin/httpx";
            "/home/user/bin/httpx"; "/usr/local/go/bin/httpx"]).
  - intros q [Hq _]. discriminate Hq.
  - reflexivity.
  - reflexivity.
  - intros q Hq. by apply elem_of_nil in Hq.
  - reflexivity.
Defined.

Lemma Done_inj {A} (a b : A) : Done a = Done b -> a = b.
Proof. by intros [=]. Qed.

Lemma probe_common_paths_not_OK w ps : (probe_common_paths w ps).1 <> OK.
Proof.
  induction ps as [|q ps IH]; simpl; [done|].
  by destruct (executable_at w q).
Qed.

Lemma probe_common_paths_missing_iff w ps :
  (probe_common_paths w ps).1 = MISSING <->
  forall q, q ∈ ps -> executable_at w q = false.
Proof.
  induction ps as [|q ps IH]; simpl.
  - split; [|done]. intros _ q Hq. by apply elem_of_nil in Hq.
  - destruct (executable_at w q) eqn:Hq; simpl.
    + split; [done|]. intros H. specialize (H q). rewrite Hq in H.
      discriminate H. by left.
    + rewrite IH. split.
      * intros H q' [->|Hq']%elem_of_cons; [done | by apply H].
      * intros H q' Hq'. apply H. by right.
Qed.

(** What the resolver does tells what was found.  It answers [OK] exactly
    when the search path resolved the command, and then the message is the
    resolved path.  It answers [MISSING] exactly when the search path did
    not resolve it, the home directory is known and none of the candidate
    paths exists with execute permission.  It raises exactly when the
    search path did not resolve it and the home directory cannot be
    determined, and what it raises is [RuntimeError]. *)
Theorem check_command_status_iff w cmd :
  ((exists msg, check_command w cmd = Done (OK, msg)) <->
   exists p, on_search_path w cmd p /\ check_command w cmd = Done (OK, p)) /\
  ((exists msg, check_command w cmd = Done (MISSING, msg)) <->
   (forall p, ~ on_search_path w cmd p) /\
   exists h, home w = Some h /\
     forall q, q ∈ common_paths h cmd -> executable_at w q = false) /\
  ((exists e, check_command w cmd = Raised e) <->
   (forall p, ~ on_search_path w cmd p) /\ home w = None /\
   check_command w cmd = Raised RuntimeError).
Proof.
  assert ((exists p, on_search_path w cmd p) \/
          (forall p, ~ on_search_path w cmd p)) as [[p Hon]|Hnot].
  { destruct (shutil_which w cmd) as [path|] eqn:E.
    - destruct (Str.truthy path) eqn:Ht.
      + left. exists path. split; [done | by apply truthy_true].
      + right. intros p [Hp Hne]. rewrite E in Hp. injection Hp as ->.
        apply truthy_true in Hne. congruence.
    - right. intros p [Hp _]. congruence. }
  - rewrite (check_command_on_path _ _ _ Hon). split; [|split].
    + split; [intros _; by exists p | intros _; by eexists].
    + split; [by intros [msg [=]] | intros [Hnot _]; by destruct (Hnot p)].
    + split; [by intros [e [=]] | intros [Hnot _]; by destruct (Hnot p)].
  - rewrite (check_command_not_on_path _ _ Hnot). unfold check_common_paths.
    destruct (home w) as [h|] eqn:Hh.
    + split; [|split].
      * split.
        -- intros [msg H%Done_inj]. exfalso.
           apply (probe_common_paths_not_OK w (common_paths h cmd)).
           by rewrite H.
        -- intros (p & Hp & _). by destruct (Hnot p).
      * split.
        -- intros [msg H%Done_inj]. split; [done|]. exists h.
           split; [done|].
           apply probe_common_paths_missing_iff. by rewrite H.
        -- intros [_ (h' & [= <-] & Hnone)].
           apply probe_common_paths_missing_iff in Hnone.
           destruct (probe_common_paths w (common_paths h cmd)) as [st msg].
           simpl in Hnone. subst st. by exists msg.
      * split; [by intros [e [=]] | by intros (_ & [=] & _)].
    + split; [|split].
      * split; [by intros [msg [=]]|]. intros (p & Hp & _).
        by destruct (Hnot p).
      * split; [by intros [msg [=]] | by intros [_ (h & [=] & _)]].
      * split; [done | by eexists].
Qed.

(** For a name that begins with the separator, [os.path.join] drops the
    home directory: when the search path does not resolve the name and the
    home directory is known, the resolver tests the name itself and then
    [/usr/local/go/bin/] followed by the name, and nothing under the home
    directory. *)
Theorem check_command_absolute w cmd h :
  Str.startswith cmd "/" = true ->
  (forall p, ~ on_search_path w cmd p) ->
  home w = Some h ->
  check_command w cmd =
    Done (if executable_at w cmd
          then (WARNING, "Found at " +:+ cmd +:+ " (Not in PATH)")
          else if executable_at w ("/usr/local/go/bin/" +:+ cmd)
          then (WARNING,
                "Found at " +:+ ("/usr/local/go/bin/" +:+ cmd)
                +:+ " (Not in PATH)")
          else (MISSING, "Not found in PATH")).
Proof.
  intros Habs Hnot Hhome. rewrite (check_command_not_on_path _ _ Hnot).
  unfold check_common_paths. rewrite Hhome.
  unfold common_paths, OsPath.join. cbn [foldl].
  assert (forall path, OsPath.join2 path cmd = cmd) as Hjoin.
  { intros path. unfold OsPath.join2. by rewrite Habs. }
  rewrite !Hjoin. cbn [probe_common_paths].
  by destruct (executable_at w cmd).
Qed.

Lemma check_command_absolute_witness :
  check_command usr_world "/usr"
  = Done (WARNING, "Found at /usr (Not in PATH)").
Proof.
  rewrite (check_command_absolute usr_world "/usr" "/home/user" eq_refl).
  - reflexivity.
  - intros p [Hp _]. discriminate Hp.
  - reflexivity.
Defined.

(** ** [check_python_package]: the answers it can give *)

Lemma check_python_package_done w package r :
  check_python_package w package = Done r ->
  (r = (OK, "") /\ find_spec w package = Spec) \/
  (r = (MISSING, "Run: pip install " +:+ package) /\
   find_spec w package <> Spec).
Proof.
  unfold check_python_package, find_spec_found.
  destruct (find_spec w package) as [| |e].
  - intros [= <-]. by left.
  - intros [= <-]. by right.
  - destruct (handles lookup_handler e); [|done].
    intros [= <-]. by right.
Qed.

(** When the resolver returns, the answer is [OK] with an empty message
    exactly for a lookup that gave a spec, and otherwise [MISSING] with the
    install hint for the name it was asked about; it never answers
    [WARNING]. *)
Theorem check_python_package_answers w package r :
  check_python_package w package = Done r ->
  (r = (OK, "") /\ find_spec w package = Spec) \/
  (r = (MISSING, "Run: pip install " +:+ package) /\
   find_spec w package <> Spec).
Proof. apply check_python_package_done. Qed.

Lemma check_python_package_answers_witness :
  find_spec stale_parent_world "os.nothing" <> Spec.
Proof.
  destruct (check_python_package_answers stale_parent_world "os.nothing"
              (MISSING, "Run: pip install os.nothing") eq_refl)
    as [[Hr _]|[_ Hspec]].
  - discriminate Hr.
  - exact Hspec.
Defined.

(** Every package identifier but [dnspython] is looked up under its own
    name, so that a [MISSING] answer for it carries the install hint for
    the identifier itself. *)
Theorem module_of_other_packages w pkg :
  pkg <> "dnspython" ->
  module_of pkg = pkg /\
  forall msg, check_python_package w (module_of pkg) = Done (MISSING, msg) ->
              msg = "Run: pip install " +:+ pkg.
Proof.
  intros Hne.
  assert (module_of pkg = pkg) as Hmod.
  { unfold module_of. apply String.eqb_neq in Hne as ->.
    by destruct (String.eqb_spec pkg "google.generativeai"). }
  split; [done|]. rewrite Hmod. intros msg Hr.
  destruct (check_python_package_done _ _ _ Hr) as [[H _]|[H _]];
    congruence.
Qed.

Lemma module_of_other_packages_witness :
  module_of "google.generativeai" = "google.generativeai" /\
  check_python_package bare_world (module_of "wafw00f")
  = Done (MISSING, "Run: pip install wafw00f").
Proof.
  split.
  - apply (module_of_other_packages bare_world "google.generativeai").
    discriminate.
  - destruct (module_of_other_packages bare_world "wafw00f") as [-> _];
      [discriminate | reflexivity].
Defined.

(** ** [check_env_var] after an assignment to the environment *)

(** Once [os.environ[k] = v] has succeeded, the check of [k] depends on
    [v] alone, not on what the environment held before, and the check of
    every other variable is what it was. *)
Theorem check_env_var_after_setitem k v env env' :
  environ_setitem k v env = Done env' ->
  check_env_var env' k = check_env_var {[k := v]} k /\
  forall var, var <> k -> check_env_var env' var = check_env_var env var.
Proof.
  intros Hset.
  assert (env' = <[k := v]> env) as ->.
  { unfold environ_setitem in Hset.
    repeat match type of Hset with
           | (if ?b then _ else _) = _ => destruct b; [done|]
           end.
    by injection Hset as <-. }
  unfold check_env_var. split.
  - by rewrite lookup_insert_eq, lookup_singleton_eq.
  - intros var Hvar. by rewrite lookup_insert_ne.
Qed.

Lemma check_env_var_after_setitem_witness :
  check_env_var (<["OPENAI_API_KEY" := "sk-live"]>
                   {["OPENAI_API_KEY" := "your-key-here";
                     "GOOGLE_API_KEY" := "   "]})
    "OPENAI_API_KEY"
  = check_env_var {["OPENAI_API_KEY" := "sk-live"]} "OPENAI_API_KEY".
Proof.
  apply (check_env_var_after_setitem "OPENAI_API_KEY" "sk-live"
           {["OPENAI_API_KEY" := "your-key-here"; "GOOGLE_API_KEY" := "   "]}).
  reflexivity.
Defined.

(** ** [print_status]: the layout of a line *)

Lemma length_append s t :
  String.length (s +:+ t) = String.length s + String.length t.
Proof. induction s as [|a s IH]; simpl; [done | by rewrite IH]. Qed.

Lemma length_repeat c n : String.length (Str.repeat c n) = n.
Proof. induction n as [|n IH]; simpl; [done | by rewrite IH]. Qed.

(** [print_status] prints one line and leaves the environment alone.  The
    line is the status tag, the name, padding, one space and the message:
    a name of up to 25 characters is padded so that the message starts 26
    columns after the tag, a longer name is printed in full and pushes the
    message to the right. *)
Theorem print_status_layout name st message s :
  exists padding,
    print_status name st message s
    = (Done tt,
       {| environ := environ s;
          stdout := stdout s ++
            [status_tag st +:+ name +:+ padding +:+ " " +:+ message] |}) /\
    Str.all (Ascii.eqb " ") padding = true /\
    String.length (name +:+ padding) = 25 `max` String.length name.
Proof.
  exists (Str.repeat " " (25 - String.length name)).
  split; [|split].
  - rewrite print_status_run. unfold emit, status_line, status_tag, Str.ljust.
    by rewrite !append_assoc.
  - induction (25 - String.length name) as [|n IH]; [done | exact IH].
  - rewrite length_append, length_repeat. lia.
Qed.

(** ** The loader: which lines fail, which keys change *)

Lemma assignment_contains_NUL line k v :
  assignment line = Some (k, v) ->
  Str.contains NUL line = Str.contains NUL k || Str.contains NUL v.
Proof.
  intros [Hs _]%assignment_first_separator.
  rewrite <- (contains_strip NUL line) by done.
  rewrite Hs, contains_append. by change ("=" +:+ v) with (String "=" v).
Qed.

Lemma load_line_raised line s e s' :
  load_line line s = (Raised e, s') <->
  s' = s /\
  exists k v, assignment line = Some (k, v) /\
    ((Str.contains NUL line = true /\ e = ValueError) \/
     (Str.contains NUL line = false /\ k = "" /\ e = OSError)).
Proof.
  rewrite load_line_assignment.
  destruct (assignment line) as [[k v]|] eqn:Ha.
  - rewrite (assignment_contains_NUL _ _ _ Ha).
    destruct (assignment_first_separator _ _ _ Ha) as [_ Hk].
    unfold environ_set, environ_setitem. rewrite Hk.
    destruct (Str.contains NUL k || Str.contains NUL v).
    + split.
      * intros [= <- <-]. split; [done|]. exists k, v. split; [done|].
        by left.
      * intros (-> & k' & v' & _ & [[_ ->]|[? _]]); done.
    + destruct k as [|a k]; simpl.
      * split.
        -- intros [= <- <-]. split; [done|]. exists "", v.
           split; [done|]. by right.
        -- intros (-> & k' & v' & _ & [[? _]|(_ & _ & ->)]); done.
      * split; [done|].
        intros (_ & k' & v' & [= <- <-] & [[? _]|(_ & ? & _)]); done.
  - split; [done|]. by intros (_ & k & v & ? & _).
Qed.

(** A line makes the loader fail exactly when it is read as an assignment
    and either holds a NUL character, which gives [ValueError], or has
    nothing before its first [=], which gives [OSError].  The failing line
    changes nothing. *)
Theorem load_line_raises_iff line s e s' :
  load_line line s = (Raised e, s') <->
  s' = s /\
  exists k v, assignment line = Some (k, v) /\
    ((Str.contains NUL line = true /\ e = ValueError) \/
     (Str.contains NUL line = false /\ k = "" /\ e = OSError)).
Proof. apply load_line_raised. Qed.

Lemma for_each_load_line_frame lines s o s' key :
  for_each lines load_line s = (o, s') ->
  (forall line k v, line ∈ lines -> assignment line = Some (k, v) ->
                    k <> key) ->
  environ s' !! key = environ s !! key /\ stdout s' = stdout s.
Proof.
  revert s. induction lines as [|line lines IH]; intros s; simpl.
  - by intros [= <- <-].
  - unfold bind.
    destruct (load_line line s) as [[[]|e] s1] eqn:E.
    + intros Hrest Hkeys. apply load_line_done in E as [Hout Henv].
      destruct (IH s1 Hrest) as [IHenv IHout].
      { intros l k v Hl. apply Hkeys. by right. }
      rewrite IHenv, IHout, Henv, Hout. split; [|done].
      destruct (assignment line) as [[k v]|] eqn:Ha; [|done].
      apply lookup_insert_ne. eapply Hkeys; [by left | done].
    + intros [= <- <-] _. by apply load_line_raised in E as [-> _].
Qed.

(** Whether the loader finishes or fails on the way, a variable that no
    line of the file assigns has the value it had before, and nothing is
    printed. *)
Theorem loader_keeps_other_keys lines s o s' key :
  for_each lines load_line s = (o, s') ->
  (forall line k v, line ∈ lines -> assignment line = Some (k, v) ->
                    k <> key) ->
  environ s' !! key = environ s !! key /\ stdout s' = stdout s.
Proof. apply for_each_load_line_frame. Qed.

Lemma loader_keeps_other_keys_witness :
  environ (for_each ["OPENAI_API_KEY=sk-one" +:+ NL; "=value" +:+ NL]
             load_line placeholder_start).2 !! "ANTHROPIC_API_KEY"
  = Some "your-key-here".
Proof.
  refine (proj1 (loader_keeps_other_keys
            ["OPENAI_API_KEY=sk-one" +:+ NL; "=value" +:+ NL]
            placeholder_start (Raised OSError) _ "ANTHROPIC_API_KEY"
            eq_refl _)).
  intros line k v Hline Ha.
  apply elem_of_cons in Hline as [->|Hline].
  - injection Ha as <- _. discriminate.
  - apply list_elem_of_singleton in Hline as ->.
    injection Ha as <- _. discriminate.
Defined.

(** When the loader finishes, a key holds the value of the last line that
    assigns it, whatever the environment and the earlier lines gave it. *)
Theorem last_assignment_wins before line after k v s s' :
  for_each (before ++ line :: after) load_line s = (Done tt, s') ->
  assignment line = Some (k, v) ->
  (forall later k' v', later ∈ after -> assignment later = Some (k', v') ->
                       k' <> k) ->
  environ s' !! k = Some v.
Proof.
  intros Hload Ha Hafter. rewrite for_each_app in Hload.
  destruct (for_each before load_line s) as [[[]|e] s1]; [|done].
  cbn [for_each] in Hload. unfold bind in Hload.
  destruct (load_line line s1) as [[[]|e] s2] eqn:E; [|done].
  apply load_line_done in E as [_ E]. rewrite Ha in E.
  destruct (for_each_load_line_frame _ _ _ _ k Hload Hafter) as [-> _].
  rewrite E. apply lookup_insert_eq.
Qed.

Lemma last_assignment_wins_witness :
  environ (for_each ["K=one" +:+ NL; "K = two" +:+ NL; "K=three" +:+ NL;
                     "# K=four" +:+ NL]
             load_line {| environ := {["K" := "zero"]}; stdout := [] |}).2
    !! "K" = Some "three".
Proof.
  apply (last_assignment_wins ["K=one" +:+ NL; "K = two" +:+ NL]
           ("K=three" +:+ NL) ["# K=four" +:+ NL] "K" "three"
           {| environ := {["K" := "zero"]}; stdout := [] |}).
  - reflexivity.
  - reflexivity.
  - intros later k' v' Hlater Ha.
    apply list_elem_of_singleton in Hlater as ->. discriminate Ha.
Defined.

(** ** [main]: what a run has done when it stops *)

(** In a world whose tool probes answer and whose package lookups are
    tolerated, the run reaches the settings file with the security report
    printed, and what follows is decided by the loader. *)
Lemma main_upto_settings w s :
  tools_resolvable w -> lookups_tolerated w ->
  exists s2,
    main w s =
      match load_settings w
              (emit (security_report w
                     ++ [NL +:+ CYAN +:+ "[+] Checking Configuration (.env)"
                         +:+ RESET]) s2) with
      | (Done _, s4) =>
          (Done tt,
           emit (variables_report (environ s4)
                 ++ summary_report (count_missing (sec_statuses w))) s4)
      | (Raised e, s4) => (Raised e, s4)
      end.
Proof.
  intros Htools%tools_resolvable_answer Hl. rewrite main_run.
  rewrite check_system_tools_run
    by (intros t Ht; apply Htools, elem_of_app; by left).
  destruct (check_python_libraries_returns w
              (emit (system_report w) (emit banner s)) Hl) as [s2 ->].
  destruct (check_security_tools_run w s2) as (m & -> & Hlen).
  { intros t Ht. apply Htools, elem_of_app. by right. }
  exists s2. rewrite check_configuration_run, emit_emit, Hlen.
  destruct (load_settings w _) as [[[]|e] s4]; [|done].
  by rewrite emit_emit.
Qed.









(** When the home directory cannot be determined, the run stops at the
    first system tool that the search path does not resolve: the tools
    before it have their lines, [RuntimeError] ends the run and nothing
    else is probed.  With a standard output that can be flushed the exit
    status is 1. *)
Theorem run_stops_without_home w s before tool after :
  home w = None ->
  sys_tools = before ++ tool :: after ->
  (forall t, t ∈ before -> exists p, on_search_path w t p) ->
  (forall p, ~ on_search_path w tool p) ->
  main w s
  = (Raised RuntimeError,
     {| environ := environ s;
        stdout := stdout s ++ banner
                  ++ (NL +:+ CYAN +:+ "[+] Checking System Tools" +:+ RESET)
                  :: probe_lines w before |}) /\
  (stdout_flushes w = true -> (run_script w s).1 = 1).
Proof.
  intros Hhome Hsplit Hbefore Hnot.
  assert (main w s
          = (Raised RuntimeError,
             {| environ := environ s;
                stdout := stdout s ++ banner
                  ++ (NL +:+ CYAN +:+ "[+] Checking System Tools" +:+ RESET)
                  :: probe_lines w before |})) as Hmain.
  { rewrite main_run. unfold check_system_tools, bind at 1, print.
    rewrite Hsplit, for_each_app, for_each_probes_run.
    - cbn [for_each]. unfold bind at 1, lift.
      rewrite (check_command_not_on_path _ _ Hnot).
      unfold check_common_paths. rewrite Hhome.
      rewrite !emit_emit. unfold emit. cbn [environ stdout].
      rewrite <- ?app_assoc. reflexivity.
    - intros t Ht. destruct (Hbefore t Ht) as [p Hp].
      exists (OK, p). by apply check_command_on_path. }
  split; [exact Hmain|].
  intros Hflush. unfold run_script. by rewrite Hmain, Hflush.
Qed.

Lemma run_stops_without_home_witness :
  (main two_tools_world start).1 = Raised RuntimeError /\
  last (stdout (main two_tools_world start).2)
  = Some (status_line "curl" OK "/usr/bin/curl") /\
  (run_script two_tools_world start).1 = 1.
Proof.
  destruct (run_stops_without_home two_tools_world start
              ["git"; "curl"] "wget" ["jq"; "nmap"; "go"; "cargo"])
    as [Hrun Hexit].
  - reflexivity.
  - reflexivity.
  - intros t Ht. exists ("/usr/bin/" +:+ t).
    repeat (apply elem_of_cons in Ht as [->|Ht];
            [split; [reflexivity | discriminate]|]).
    by apply elem_of_nil in Ht.
  - intros p [Hp _]. discriminate Hp.
  - rewrite Hrun. split; [reflexivity|]. split; [reflexivity|].
    by apply Hexit.
Defined.

(** When [Path.exists] raises, the run ends there: the heading of the
    settings section is the last line printed.  For an [OSError] and a
    standard output that can be flushed the exit status is 1. *)
Theorem run_with_unknown_settings_file w s e :
  dotenv w = Unknown e -> tools_resolvable w -> lookups_tolerated w ->
  exists s',
    main w s = (Raised e, s') /\
    (exists pre,
       stdout s' = pre ++
         [NL +:+ CYAN +:+ "[+] Checking Configuration (.env)" +:+ RESET]) /\
    (issubclass e OSError = true -> stdout_flushes w = true ->
     (run_script w s).1 = 1).
Proof.
  intros Hfile Htools Hl.
  destruct (main_upto_settings w s Htools Hl) as [s2 Hmain].
  unfold load_settings in Hmain. rewrite Hfile in Hmain.
  unfold raise in Hmain.
  eexists. split; [exact Hmain|]. split.
  - exists (stdout s2 ++ security_report w).
    unfold emit. cbn [stdout]. rewrite <- !app_assoc. reflexivity.
  - intros He Hflush. unfold run_script. rewrite Hmain, Hflush.
    by destruct e.
Qed.

Lemma run_with_unknown_settings_file_witness :
  (main unsearchable_world start).1 = Raised PermissionError /\
  (run_script unsearchable_world start).1 = 1.
Proof.
  destruct (run_with_unknown_settings_file unsearchable_world start
              PermissionError eq_refl) as (s' & Hrun & _ & Hexit).
  { left. by eexists. }
  { intros pkg e _ Hraise. discriminate Hraise. }
  split; [by rewrite Hrun | by apply Hexit].
Defined.

(** A settings file that stops decoding part-way: the lines read before
    that have been taken, the exception of the read then ends the run, and
    the last line printed is the one that reports the file as found.  With
    a standard output that can be flushed the exit status is 1, unless the
    exception is a [SystemExit]. *)
Theorem run_with_broken_settings_file w s before line after k v e :
  dotenv w = Broken (before ++ line :: after) e ->
  tools_resolvable w -> lookups_tolerated w ->
  (forall l, l ∈ before ++ line :: after -> storable l) ->
  assignment line = Some (k, v) ->
  (forall later k' v', later ∈ after -> assignment later = Some (k', v') ->
                       k' <> k) ->
  exists s',
    main w s = (Raised e, s') /\
    environ s' !! k = Some v /\
    (exists pre,
       stdout s' = pre ++
         [ NL +:+ CYAN +:+ "[+] Checking Configuration (.env)" +:+ RESET;
           status_line ".env file" OK "Found" ]) /\
    ((forall code, e <> SystemExit code) -> stdout_flushes w = true ->
     (run_script w s).1 = 1).
Proof.
  intros Hfile Htools Hl Hs Ha Hafter.
  destruct (main_upto_settings w s Htools Hl) as [s2 Hmain].
  unfold load_settings in Hmain. rewrite Hfile in Hmain.
  unfold bind at 1 in Hmain. rewrite print_status_run, emit_emit in Hmain.
  unfold bind, raise in Hmain.
  match type of Hmain with
  | context [for_each _ load_line ?s0] =>
      destruct (load_lines_storable _ s0 Hs) as [env' Hload]
  end.
  rewrite Hload in Hmain.
  eexists. split; [exact Hmain|]. split; [|split].
  - cbn [environ]. rewrite for_each_app in Hload.
    destruct (for_each before load_line _) as [[[]|e1] s1]; [|done].
    cbn [for_each] in Hload. unfold bind in Hload.
    destruct (load_line line s1) as [[[]|e1] s3] eqn:E; [|done].
    apply load_line_done in E as [_ E]. rewrite Ha in E.
    destruct (for_each_load_line_frame _ _ _ _ k Hload Hafter) as [Hk _].
    cbn [environ] in Hk. rewrite Hk, E. apply lookup_insert_eq.
  - exists (stdout s2 ++ security_report w).
    unfold emit. cbn [stdout]. rewrite <- !app_assoc. reflexivity.
  - intros He Hflush. unfold run_script. rewrite Hmain, Hflush.
    destruct e; try reflexivity. by destruct (He code).
Qed.

Lemma run_with_broken_settings_file_witness :
  (main half_read_world start).1 = Raised UnicodeDecodeError /\
  environ (main half_read_world start).2 !! "OPENAI_API_KEY"
  = Some "sk-one" /\
  (run_script half_read_world start).1 = 1.
Proof.
  destruct (run_with_broken_settings_file half_read_world start
              [] ("OPENAI_API_KEY=sk-one" +:+ NL) [] "OPENAI_API_KEY"
              "sk-one" UnicodeDecodeError eq_refl)
    as (s' & Hrun & Hk & _ & Hexit).
  - left. by eexists.
  - intros pkg e _ Hraise. discriminate Hraise.
  - intros l Hl%list_elem_of_singleton k v Ha. subst l.
    injection Ha as <- _. split; [discriminate | reflexivity].
  - reflexivity.
  - intros later k' v' Hlater. by apply elem_of_nil in Hlater.
  - rewrite Hrun. split; [reflexivity|]. split; [exact Hk|].
    by apply Hexit.
Defined.

(** ** [main]: what a run may change *)

Lemma for_each_probes_environ w tools s o s' :
  for_each tools (fun tool =>
    r <- lift (check_command w tool) ;;
    let '(st, msg) := r in
    print_status tool st msg) s = (o, s') ->
  environ s' = environ s.
Proof.
  revert s. induction tools as [|tool tools IH]; intros s; simpl.
  - by intros [= <- <-].
  - unfold bind at 1 2, lift.
    destruct (check_command w tool) as [[st msg]|e].
    + rewrite print_status_run. intros H. by rewrite (IH _ H).
    + by intros [= <- <-].
Qed.

Lemma probe_security_tools_environ w tools missing s o s' :
  probe_security_tools w tools missing s = (o, s') ->
  environ s' = environ s.
Proof.
  revert missing s. induction tools as [|tool tools IH]; intros missing s.
  - simpl. by intros [= <- <-].
  - cbn [probe_security_tools]. unfold bind at 1, lift.
    destruct (check_command w tool) as [[st msg]|e].
    + unfold bind. rewrite print_status_run. intros H. by rewrite (IH _ _ H).
    + by intros [= <- <-].
Qed.

Lemma for_each_packages_key w key pkgs s o s' :
  (forall package s0,
     environ (lookup_effect w package s0) !! key = environ s0 !! key) ->
  for_each pkgs (fun pkg =>
    r <- call_check_python_package w (module_of pkg) ;;
    let '(st, msg) := r in print_status pkg st msg) s = (o, s') ->
  environ s' !! key = environ s !! key.
Proof.
  intros Hkey. revert s. induction pkgs as [|pkg pkgs IH]; intros s; simpl.
  - by intros [= <- <-].
  - unfold bind at 1 2, call_check_python_package.
    destruct (check_python_package w (module_of pkg)) as [[st msg]|e].
    + rewrite print_status_run. intros H. rewrite (IH _ H). apply Hkey.
    + intros [= <- <-]. apply Hkey.
Qed.

Lemma check_system_tools_environ w s o s' :
  check_system_tools w s = (o, s') -> environ s' = environ s.
Proof.
  unfold check_system_tools, bind at 1, print.
  intros H%for_each_probes_environ. exact H.
Qed.

Lemma check_python_libraries_key w key s o s' :
  (forall package s0,
     environ (lookup_effect w package s0) !! key = environ s0 !! key) ->
  check_python_libraries w s = (o, s') ->
  environ s' !! key = environ s !! key.
Proof.
  intros Hkey. unfold check_python_libraries, bind at 1, print.
  intros H. apply (for_each_packages_key w key _ _ _ _ Hkey) in H.
  exact H.
Qed.

Lemma check_security_tools_environ w s o s' :
  check_security_tools w s = (o, s') -> environ s' = environ s.
Proof.
  unfold check_security_tools, bind at 1, print.
  intros H%probe_security_tools_environ. exact H.
Qed.

Lemma load_settings_key w key s o s' :
  load_settings w s = (o, s') ->
  (forall ls line k v,
     dotenv w = Lines ls \/ (exists e, dotenv w = Broken ls e) ->
     line ∈ ls -> assignment line = Some (k, v) -> k <> key) ->
  environ s' !! key = environ s !! key.
Proof.
  intros Hload Hkeys. unfold load_settings in Hload.
  destruct (dotenv w) as [|e|e|ls e|ls] eqn:Hfile.
  - rewrite print_status_run in Hload. by injection Hload as _ <-.
  - unfold raise in Hload. by injection Hload as _ <-.
  - unfold bind, raise in Hload. rewrite print_status_run in Hload.
    by injection Hload as _ <-.
  - unfold bind at 1 in Hload. rewrite print_status_run in Hload.
    unfold bind in Hload.
    destruct (for_each ls load_line _) as [o5 s5] eqn:Hlines.
    destruct (for_each_load_line_frame _ _ _ _ key Hlines
                (fun line k v =>
                   Hkeys ls line k v (or_intror (ex_intro _ e eq_refl))))
      as [Hsame _].
    unfold raise in Hload.
    destruct o5 as [[]|e5]; injection Hload as _ <-; exact Hsame.
  - unfold bind in Hload. rewrite print_status_run in Hload.
    destruct (for_each_load_line_frame _ _ _ _ key Hload
                (fun line k v => Hkeys ls line k v (or_introl eq_refl)))
      as [Hsame _].
    exact Hsame.
Qed.

(** However a run ends, a variable is as it was before the run unless a
    line of the settings file assigns it or a package lookup changes it:
    for a key that the lookups leave alone and that no line of the file
    assigns (or with no settings file), the value after the run is the
    value before it.  The tool probes, the variable checks and the summary
    never write to the environment. *)
Theorem run_changes_only_assigned_keys w s o s' key :
  main w s = (o, s') ->
  (forall package s0,
     environ (lookup_effect w package s0) !! key = environ s0 !! key) ->
  (forall ls line k v,
     dotenv w = Lines ls \/ (exists e, dotenv w = Broken ls e) ->
     line ∈ ls -> assignment line = Some (k, v) -> k <> key) ->
  environ s' !! key = environ s !! key.
Proof.
  rewrite main_run. intros Hrun Hlookups Hkeys.
  destruct (check_system_tools w _) as [o1 s1] eqn:Hsys.
  apply check_system_tools_environ in Hsys.
  destruct o1 as [[]|e]; [|injection Hrun as _ <-; by rewrite Hsys].
  destruct (check_python_libraries w _) as [o2 s2] eqn:Hpk.
  apply (check_python_libraries_key w key _ _ _ Hlookups) in Hpk.
  destruct o2 as [[]|e]; [|injection Hrun as _ <-; by rewrite Hpk, Hsys].
  destruct (check_security_tools w _) as [o3 s3] eqn:Hsec.
  apply check_security_tools_environ in Hsec.
  destruct o3 as [m|e];
    [|injection Hrun as _ <-; by rewrite Hsec, Hpk, Hsys].
  rewrite check_configuration_run in Hrun.
  destruct (load_settings w _) as [o4 s4] eqn:Hload.
  apply (load_settings_key w key _ _ _) in Hload; [|exact Hkeys].
  assert (environ s4 !! key = environ s !! key) as Hs4.
  { rewrite Hload. cbn [environ emit]. by rewrite Hsec, Hpk, Hsys. }
  destruct o4 as [[]|e]; injection Hrun as _ <-; exact Hs4.
Qed.

Lemma run_changes_only_assigned_keys_witness :
  environ (main torn_world placeholder_start).2 !! "ANTHROPIC_API_KEY"
  = Some "your-key-here".
Proof.
  refine (run_changes_only_assigned_keys torn_world placeholder_start
            (main torn_world placeholder_start).1 _ "ANTHROPIC_API_KEY"
            _ _ _).
  - by destruct (main torn_world placeholder_start).
  - intros package s0. reflexivity.
  - intros ls line k v [[= <-]|[e [=]]] Hline Ha.
    repeat (apply elem_of_cons in Hline as [->|Hline];
            [injection Ha as <- _; discriminate|]).
    by apply elem_of_nil in Hline.
Defined.

(** ** [print_summary]: the count can be read off the summary *)

Lemma append_cancel_r s1 s2 t : s1 +:+ t = s2 +:+ t -> s1 = s2.
Proof.
  revert s2. induction s1 as [|a s1 IH]; intros [|b s2] H.
  - done.
  - apply (f_equal String.length) in H.
    rewrite !length_append in H. simpl in H. lia.
  - apply (f_equal String.length) in H.
    rewrite !length_append in H. simpl in H. lia.
  - simpl in H. injection H as -> H. by rewrite (IH _ H).
Qed.

(** The summary tells the number of missing tools and nothing else about
    them: two lists of missing tools give the same summary lines exactly
    when they have the same length. *)
Theorem print_summary_tells_count missing1 missing2 s :
  print_summary missing1 s = print_summary missing2 s <->
  length missing1 = length missing2.
Proof.
  rewrite !print_summary_run. split; [|by intros ->].
  intros [= H%app_inv_head]. revert H. unfold summary_report.
  destruct (length missing1) as [|n1], (length missing2) as [|n2];
    [done | done | done |].
  intros [= H]. apply append_cancel_r in H. by apply (inj pretty) in H.
Qed.
